(** * Lead cleaning and reporting: a model of [task1_clean_and_report.py]

    The script reads a lead list with [pandas.read_csv(dtype=str)],
    validates and deduplicates the rows by e-mail ([clean_leads]), derives a
    day and a week bucket per row, and counts the rows per bucket
    ([generate_report]).

    Conventions of the model.
    - A Python [str] is a [string]; a character is a code point below 256.
    - A cell of a frame read with [dtype=str] is a [str] or missing ([NaN]).
    - A frame row is a finite map from column label to cell; the frame keeps
      the labels in header order.  Frames whose labels collide after trimming
      are excluded by [wf_table]: pandas treats duplicate labels by rules of
      its own that the script never relies on.
    - [pd.to_datetime(..., errors="coerce")] is library code: it is a
      parameter of the model, a function of the whole column. *)

From Stdlib Require Import ZArith Ascii String Lia Sorted.
From stdpp Require Import gmap strings list fin_maps pretty.

Open Scope string_scope.

(** ** Strings: [str.strip], [str.lower] *)

Module Str.

Definition ord (c : ascii) : N := N_of_ascii c.

(** [str.isspace] on one code point below 256: TAB..CR, FS..US, space,
    NEL (0x85) and NBSP (0xa0). *)
Definition isspace (c : ascii) : bool :=
  let n := ord c in
  ((9 <=? n) && (n <=? 13) || (28 <=? n) && (n <=? 32) || (n =? 133) || (n =? 160))%N.

Fixpoint lstrip (s : string) : string :=
  match s with
  | EmptyString => EmptyString
  | String c s' => if isspace c then lstrip s' else s
  end.

Fixpoint rstrip (s : string) : string :=
  match s with
  | EmptyString => EmptyString
  | String c s' =>
      match rstrip s' with
      | EmptyString => if isspace c then EmptyString else String c EmptyString
      | r => String c r
      end
  end.

(** [s.strip()] *)
Definition strip (s : string) : string := rstrip (lstrip s).

(** [str.lower] on one code point below 256: A-Z and the accented capitals
    0xC0-0xDE (the multiplication sign 0xD7 apart) move up by 32. *)
Definition lower_char (c : ascii) : ascii :=
  let n := ord c in
  if ((65 <=? n) && (n <=? 90) || (192 <=? n) && (n <=? 222) && negb (n =? 215))%N
  then ascii_of_N (n + 32) else c.

Fixpoint lower (s : string) : string :=
  match s with
  | EmptyString => EmptyString
  | String c s' => String (lower_char c) (lower s')
  end.

Fixpoint all_chars (p : ascii -> bool) (s : string) : bool :=
  match s with
  | EmptyString => true
  | String c s' => p c && all_chars p s'
  end.

Fixpoint last_char (s : string) : option ascii :=
  match s with
  | EmptyString => None
  | String c EmptyString => Some c
  | String _ s' => last_char s'
  end.

Definition first_char (s : string) : option ascii :=
  match s with
  | EmptyString => None
  | String c _ => Some c
  end.

End Str.

(** ** Regular expressions: the fragment [EMAIL_REGEX] is written in *)

Module Re.

(** One item of a bracket expression: [a-z] or a single character. *)
Inductive set_item :=
| Range (lo hi : ascii)
| Single (c : ascii).

Inductive regex :=
| Caret                          (* ^ *)
| Dollar                         (* $ *)
| Lit (c : ascii)                (* an escaped or plain character *)
| SetPlus (items : list set_item) (* [...]+ *)
| Cat (r1 r2 : regex)
| Group (r : regex).             (* ( ... ) *)

Definition in_item (c : ascii) (i : set_item) : bool :=
  match i with
  | Range lo hi => ((Str.ord lo <=? Str.ord c) && (Str.ord c <=? Str.ord hi))%N
  | Single c' => Ascii.eqb c c'
  end.

Definition in_set (items : list set_item) (c : ascii) : bool :=
  existsb (in_item c) items.

(** [$] without MULTILINE: the end of the subject, or just before a newline
    that ends it. *)
Definition at_end (s : string) : bool :=
  match s with
  | EmptyString => true
  | String c EmptyString => Ascii.eqb c "010"
  | _ => false
  end.

(** Backtracking matcher with a continuation; [pos] is the offset of [s] in
    the subject.  [plus_set] tries the longer repetition first. *)
Fixpoint plus_set (items : list set_item) (pos : nat) (s : string)
         (k : nat -> string -> bool) : bool :=
  match s with
  | EmptyString => false
  | String c s' =>
      in_set items c && (plus_set items (S pos) s' k || k (S pos) s')
  end.

Fixpoint run (r : regex) (pos : nat) (s : string)
         (k : nat -> string -> bool) : bool :=
  match r with
  | Caret => Nat.eqb pos 0 && k pos s
  | Dollar => at_end s && k pos s
  | Lit c =>
      match s with
      | String c' s' => Ascii.eqb c' c && k (S pos) s'
      | EmptyString => false
      end
  | SetPlus items => plus_set items pos s k
  | Cat r1 r2 => run r1 pos s (fun p s' => run r2 p s' k)
  | Group r' => run r' pos s k
  end.

(** [r.match(s) is not None]: a match that starts at offset 0. *)
Definition matches (r : regex) (s : string) : bool :=
  run r 0 s (fun _ _ => true).

End Re.

Import Re.

(** [[a-zA-Z0-9_.+-]] *)
Definition LOCAL_SET : list set_item :=
  [Range "a" "z"; Range "A" "Z"; Range "0" "9";
   Single "_"; Single "."; Single "+"; Single "-"]%char.

(** [[a-zA-Z0-9-]] *)
Definition DOMAIN_SET : list set_item :=
  [Range "a" "z"; Range "A" "Z"; Range "0" "9"; Single "-"]%char.

(** [[a-zA-Z0-9-.]] *)
Definition TLD_SET : list set_item :=
  [Range "a" "z"; Range "A" "Z"; Range "0" "9"; Single "-"; Single "."]%char.

(** [(^[a-zA-Z0-9_.+-]+@[a-zA-Z0-9-]+\.[a-zA-Z0-9-.]+$)] *)
Definition EMAIL_REGEX : regex :=
  Group (Cat Caret
        (Cat (SetPlus LOCAL_SET)
        (Cat (Lit "@")
        (Cat (SetPlus DOMAIN_SET)
        (Cat (Lit ".")
        (Cat (SetPlus TLD_SET) Dollar)))))).

(** [valid_email(e)]: [e] is a [str] or missing ([None] stands for NaN). *)
Definition valid_email (e : option string) : bool :=
  match e with
  | None => false
  | Some s => matches EMAIL_REGEX (Str.strip s)
  end.

(** ** The e-mail shape in the specification's words *)

Module EmailSpec.

Definition alnum (c : ascii) : bool :=
  let n := Str.ord c in
  ((97 <=? n) && (n <=? 122) || (65 <=? n) && (n <=? 90) || (48 <=? n) && (n <=? 57))%N.

Definition one_of (cs : string) (c : ascii) : bool :=
  negb (Str.all_chars (fun c' => negb (Ascii.eqb c c')) cs).

Definition local_char (c : ascii) : bool := alnum c || one_of "_.+-" c.
Definition domain_char (c : ascii) : bool := alnum c || one_of "-" c.
Definition tld_char (c : ascii) : bool := alnum c || one_of "-." c.

(** [local@domain.tld], every part non-empty, the whole string. *)
Definition email_shape (s : string) : Prop :=
  exists l d t : string,
    s = l ++ "@" ++ d ++ "." ++ t
    /\ l <> "" /\ d <> "" /\ t <> ""
    /\ Str.all_chars local_char l = true
    /\ Str.all_chars domain_char d = true
    /\ Str.all_chars tld_char t = true.

End EmailSpec.

(** ** Frames *)

(** A value held by a frame. *)
Inductive cell :=
| Str (s : string)      (* a str *)
| NaN                   (* missing value read from the file *)
| NaT                   (* missing date or timestamp *)
| Timestamp (ns : Z)    (* datetime64[ns]: nanoseconds since 1970-01-01T00:00 *)
| DateV (days : Z)      (* datetime.date: days since 1970-01-01 *)
| CBool (b : bool).

#[global] Instance cell_eq_dec : EqDecision cell.
Proof. solve_decision. Defined.

(** [pd.isna] / the negation of [pd.notna] *)
Definition isna (c : cell) : bool :=
  match c with
  | NaN | NaT => true
  | _ => false
  end.

(** What [pd.read_csv(path, dtype=str)] returns: the header as written and,
    per line, one [str] or missing value per column. *)
Record table := Table {
  header : list string;
  body : list (list (option string))
}.

(** A frame: the column labels in order and the rows, each a map from label
    to value. *)
Record frame := Frame {
  columns : list string;
  rows : list (gmap string cell)
}.

Definition of_csv (e : option string) : cell :=
  match e with
  | Some s => Str s
  | None => NaN
  end.

(** [r[c]] within a row. *)
Definition at_col (c : string) (r : gmap string cell) : cell :=
  default NaN (r !! c).

(** [len(df)] *)
Definition len (df : frame) : Z := Z.of_nat (length (rows df)).

(** [df[c]] as a series of values. *)
Definition col (c : string) (df : frame) : list cell :=
  at_col c <$> rows df.

(** [df[c] = vals]: replaces the column when the label exists, appends it
    otherwise. *)
Definition set_col (c : string) (vals : list cell) (df : frame) : frame :=
  Frame (if bool_decide (c ∈ columns df) then columns df else columns df ++ [c])
        (zip_with (fun r v => <[c := v]> r) (rows df) vals).

(** [df[mask]] for a boolean series [mask]. *)
Fixpoint select {A} (mask : list bool) (l : list A) : list A :=
  match mask, l with
  | b :: mask', x :: l' => if b then x :: select mask' l' else select mask' l'
  | _, _ => []
  end.

Definition as_bool (c : cell) : bool :=
  match c with
  | CBool b => b
  | _ => false
  end.

Definition filter_rows (mask : list bool) (df : frame) : frame :=
  Frame (columns df) (select mask (rows df)).

(** [df.drop(columns=[c])] *)
Definition drop_col (c : string) (df : frame) : frame :=
  Frame (List.filter (fun c' => negb (String.eqb c' c)) (columns df))
        (delete c <$> rows df).

(** [Series.duplicated(keep="first")]: position [j] is marked when an earlier
    position holds an equal value. *)
Fixpoint duplicated_from (seen : list cell) (keys : list cell) : list bool :=
  match keys with
  | [] => []
  | k :: keys' => bool_decide (k ∈ seen) :: duplicated_from (k :: seen) keys'
  end.

Definition duplicated (keys : list cell) : list bool := duplicated_from [] keys.

(** [df.drop_duplicates(subset=[c])] *)
Definition drop_duplicates (c : string) (df : frame) : frame :=
  filter_rows (negb <$> duplicated (col c df)) df.

(** [Series.nunique()]: distinct values, missing ones not counted. *)
Definition nunique (vals : list cell) : Z :=
  Z.of_nat (length (remove_dups (List.filter (fun v => negb (isna v)) vals))).

(** Order of group keys.  Keys of one kind are ordered by value; the order
    between kinds is by constructor and plays no part for a [lead_day] or
    [lead_week] column, which holds dates only. *)
Definition kind (c : cell) : Z :=
  match c with
  | Str _ => 0 | NaN => 1 | NaT => 2 | Timestamp _ => 3 | DateV _ => 4 | CBool _ => 5
  end.

Definition cell_ltb (a b : cell) : bool :=
  match a, b with
  | DateV x, DateV y => (x <? y)%Z
  | Timestamp x, Timestamp y => (x <? y)%Z
  | Str x, Str y => String.ltb x y
  | CBool x, CBool y => negb x && y
  | _, _ => (kind a <? kind b)%Z
  end.

(** Adds [n] to the count of group [k], creating the group at its place in
    ascending key order. *)
Fixpoint bump (k : cell) (n : Z) (acc : list (cell * Z)) : list (cell * Z) :=
  match acc with
  | [] => [(k, n)]
  | (k', m) :: acc' =>
      if bool_decide (k = k') then (k', (m + n)%Z) :: acc'
      else if cell_ltb k k' then (k, n) :: acc
      else (k', m) :: bump k n acc'
  end.

(** One row added to the groups: a row whose key is missing is skipped
    ([dropna=True], the default of [groupby]); [count] counts the values of
    [val] that are not missing. *)
Definition count_step (key val : string) (acc : list (cell * Z))
           (r : gmap string cell) : list (cell * Z) :=
  let k := at_col key r in
  if isna k then acc
  else bump k (if isna (at_col val r) then 0 else 1)%Z acc.

(** [df.groupby(key)[val].count().rename("count").reset_index()]: one row
    per key, in ascending key order. *)
Definition groupby_count (key val : string) (df : frame) : list (cell * Z) :=
  foldl (count_step key val) [] (rows df).

(** ** Dates *)

Definition NS_PER_DAY : Z := 86400000000000.

(** [Timestamp.date()], [Series.dt.date]: the calendar day of a timestamp. *)
Definition dt_date (ns : Z) : Z := (ns / NS_PER_DAY)%Z.

(** [to_period("W")]: the ordinal of the Monday-to-Sunday week ([W-SUN]) that
    holds the timestamp; week 0 starts on Monday 1969-12-29. *)
Definition to_period_W (ns : Z) : Z := ((dt_date ns + 3) / 7)%Z.

(** [Period.start_time] of a weekly period: its first instant. *)
Definition start_time (p : Z) : Z := ((7 * p - 3) * NS_PER_DAY)%Z.

(** [date.weekday()]: Monday is 0, Sunday is 6; 1970-01-01 was a Thursday. *)
Definition weekday (d : Z) : Z := ((d + 3) mod 7)%Z.

(** The values a [.dt] accessor sees in a datetime column. *)
Definition dt_value (c : cell) : option Z :=
  match c with
  | Timestamp ns => Some ns
  | _ => None
  end.

Definition of_ts (o : option Z) : cell :=
  match o with
  | Some ns => Timestamp ns
  | None => NaT
  end.

(** [valid_df[date_col].dt.date] *)
Definition lead_day_of (c : cell) : cell :=
  match dt_value c with
  | Some ns => DateV (dt_date ns)
  | None => NaT
  end.

(** [valid_df[date_col].dt.to_period("W").apply(
       lambda r: r.start_time.date() if pd.notna(r) else pd.NaT)] *)
Definition lead_week_of (c : cell) : cell :=
  match to_period_W <$> dt_value c with
  | Some r => DateV (dt_date (start_time r))
  | None => NaT
  end.

(** ** The pipeline *)

(** [c.lower() == "email"] *)
Definition is_email_label (c : string) : bool :=
  String.eqb (Str.lower c) "email".

(** [c.lower() in ("date", "created_at", "lead_date")] *)
Definition is_date_label (c : string) : bool :=
  existsb (String.eqb (Str.lower c)) ["date"; "created_at"; "lead_date"].

(** [for c in cols: if p(c): found = c; break]: the first label that
    satisfies [p]. *)
Definition first_label (p : string -> bool) (cols : list string)
  : option string :=
  List.find p cols.

(** [str(v)] for a value read from the file: [str(nan)] is ["nan"]. *)
Definition astype_str (e : option string) : string :=
  match e with
  | Some s => s
  | None => "nan"
  end.

(** The value under label [c] in line [r] of the file, the labels being
    [cols]. *)
Definition raw_at (cols : list string) (c : string) (r : list (option string))
  : option string :=
  mjoin ((list_to_map (zip cols r) : gmap string (option string)) !! c).

(** One line of the file as a row under the labels [cols]. *)
Definition row_of (cols : list string) (r : list (option string))
  : gmap string cell :=
  list_to_map (zip cols (of_csv <$> r)).

(** [df.rename(columns={c: c.strip() for c in df.columns})] *)
Definition renamed (t : table) : frame :=
  let cols := Str.strip <$> header t in
  Frame cols (row_of cols <$> body t).

(** A table as [read_csv] builds it and the script can use it: every line
    has one field per label, and the labels are distinct once trimmed. *)
Definition wf_table (t : table) : bool :=
  bool_decide (NoDup (Str.strip <$> header t))
  && forallb (fun r => Nat.eqb (length r) (length (header t))) (body t).

Inductive exn :=
| ValueError (msg : string).

(** The line [print(f"Error: {e}", file=sys.stderr)] writes. *)
Definition error_line (e : string) : string :=
  "Error: " ++ e ++ String "010" "".

Section Pipeline.

(** [to_datetime vals i] is the value at position [i] of
    [pd.to_datetime(vals, errors="coerce")]: a timestamp, or nothing (NaT)
    where the text does not parse. *)
Variable to_datetime : list cell -> nat -> option Z.

Definition parsed (vals : list cell) : list cell :=
  (fun i => of_ts (to_datetime vals i)) <$> seq 0 (length vals).

Definition clean_leads (t : table) : exn + (frame * Z * Z) :=
  let df := renamed t in
  match first_label is_email_label (columns df) with
  | None => inl (ValueError "Input CSV must contain an 'email' column")
  | Some email_col =>
      (* df[email_col] = df[email_col].astype(str).str.strip(); the column
         of [df] holds the fields of the file, see [at_col_row_of] *)
      let emails :=
        (fun r => Str.strip (astype_str (raw_at (columns df) email_col r)))
          <$> body t in
      let df := set_col email_col (Str <$> emails) df in
      (* df["__valid_email"] = df[email_col].apply(valid_email) *)
      let df :=
        set_col "__valid_email"
                ((fun e => CBool (valid_email (Some e))) <$> emails) df in
      let valid_df := filter_rows (as_bool <$> col "__valid_email" df) df in
      let invalid_count := (len df - len valid_df)%Z in
      let before := len valid_df in
      let valid_df := drop_duplicates email_col valid_df in
      let removed_dups := (before - len valid_df)%Z in
      let '(valid_df, date_col) :=
        match first_label is_date_label (columns df) with
        | Some date_col =>
            (set_col date_col (parsed (col date_col valid_df)) valid_df,
             date_col)
        | None =>
            (set_col "date" (replicate (length (rows valid_df)) NaT) valid_df,
             "date")
        end in
      let valid_df :=
        set_col "lead_day" (lead_day_of <$> col date_col valid_df) valid_df in
      let valid_df :=
        set_col "lead_week" (lead_week_of <$> col date_col valid_df) valid_df in
      let valid_df := drop_col "__valid_email" valid_df in
      inr (valid_df, invalid_count, removed_dups)
  end.

(** The three sheets of the report and the figures [main] prints. *)
Record report := Report {
  daily : list (cell * Z);
  weekly : list (cell * Z);
  total_leads : Z;
  unique_customers : Z
}.

Definition generate_report (df : frame) (email_col : string) : report :=
  let daily :=
    if bool_decide ("lead_day" ∈ columns df)
    then groupby_count "lead_day" email_col df else [] in
  let weekly :=
    if bool_decide ("lead_week" ∈ columns df)
    then groupby_count "lead_week" email_col df else [] in
  {| daily := daily; weekly := weekly;
     total_leads := len df;
     unique_customers := nunique (col email_col df) |}.

Inductive outcome :=
| Exit (status : Z) (stderr : string)   (* message printed, [sys.exit] *)
| Uncaught                              (* an exception [main] lets through *)
| Completed (cleaned : frame) (rep : report) (invalid_count removed_dups : Z).

Definition main (t : table) : outcome :=
  match clean_leads t with
  | inl (ValueError e) => Exit 2 (error_line e)
  | inr (cleaned, invalid_count, removed_dups) =>
      match first_label is_email_label (columns cleaned) with
      | Some email_col =>
          Completed cleaned (generate_report cleaned email_col)
                    invalid_count removed_dups
      | None => Uncaught (* indexing the groups by [None] raises KeyError *)
      end
  end.

End Pipeline.

(** ** The pipeline, row by row

    The same computation written per line of the file; [clean_leads_rows]
    below proves that [clean_leads] returns exactly this. *)

(** [df.columns] after [df[c] = ...]. *)
Definition with_label (c : string) (cols : list string) : list string :=
  if bool_decide (c ∈ cols) then cols else cols ++ [c].

(** The label of the column the dates are derived from. *)
Definition date_label (cols : list string) : string :=
  default "date" (first_label is_date_label cols).

(** The Canonical Email of a line: the trimmed text of its e-mail field. *)
Definition key_of (cols : list string) (ec : string) (r : list (option string))
  : string :=
  Str.strip (astype_str (raw_at cols ec r)).

(** A line once its e-mail is trimmed and its validity recorded. *)
Definition base_row (cols : list string) (ec : string) (r : list (option string))
  : gmap string cell :=
  <["__valid_email" := CBool (valid_email (Some (key_of cols ec r)))]>
    (<[ec := Str (key_of cols ec r)]> (row_of cols r)).

(** The lines whose e-mail is valid, in input order. *)
Definition valid_lines (cols : list string) (ec : string)
           (lines : list (list (option string))) : list (list (option string)) :=
  select ((fun r => valid_email (Some (key_of cols ec r))) <$> lines) lines.

(** The valid lines that are first with their Canonical Email. *)
Definition kept_lines (cols : list string) (ec : string)
           (lines : list (list (option string))) : list (list (option string)) :=
  let valid := valid_lines cols ec lines in
  select (negb <$> duplicated ((fun r => Str (key_of cols ec r)) <$> valid)) valid.

(** A kept line with its parsed date [v], the two derived fields added and
    the validity marker removed. *)
Definition final_row (cols : list string) (ec dc : string)
           (r : list (option string)) (v : cell) : gmap string cell :=
  delete "__valid_email"
    (<["lead_week" := lead_week_of v]>
       (<["lead_day" := lead_day_of v]>
          (<[dc := v]> (base_row cols ec r)))).

Definition final_columns (cols : list string) : list string :=
  List.filter (fun c => negb (String.eqb c "__valid_email"))
    (with_label "lead_week"
       (with_label "lead_day"
          (with_label (date_label cols) (with_label "__valid_email" cols)))).

(** The parsed dates of the kept lines [kept]. *)
Definition date_values (to_datetime : list cell -> nat -> option Z)
           (cols : list string) (ec : string)
           (kept : list (list (option string))) : list cell :=
  match first_label is_date_label cols with
  | Some dc =>
      parsed to_datetime ((fun r => at_col dc (base_row cols ec r)) <$> kept)
  | None => replicate (length kept) NaT
  end.

(** The valid-email rows of a table, by [valid_email] on the field as read. *)
Definition valid_email_rows (t : table) : list (list (option string)) :=
  let cols := Str.strip <$> header t in
  match first_label is_email_label cols with
  | Some ec => List.filter (fun r => valid_email (raw_at cols ec r)) (body t)
  | None => []
  end.

(** The Clean Records that carry a date. *)
Definition dated (df : frame) : list (gmap string cell) :=
  List.filter (fun r => negb (isna (at_col "lead_day" r))) (rows df).

(** Sum of the [count] column of a sheet. *)
Definition sum_count (sheet : list (cell * Z)) : Z :=
  foldr (fun kc acc => (kc.2 + acc)%Z) 0%Z sheet.

(** ** Writing the clean frame and reading it again *)

(** The texts [read_csv] reads as a missing value. *)
Definition NA_VALUES : list string :=
  [""; "#N/A"; "#N/A N/A"; "#NA"; "-1.#IND"; "-1.#QNAN"; "-NaN"; "-nan";
   "1.#IND"; "1.#QNAN"; "<NA>"; "N/A"; "NA"; "NULL"; "NaN"; "None"; "n/a";
   "nan"; "null"].

Definition read_field (s : string) : option string :=
  if bool_decide (s ∈ NA_VALUES) then None else Some s.

(** A table as [read_csv] yields it: no field holds a text that is read as
    missing, and no label is blank. *)
Definition from_read_csv (t : table) : bool :=
  forallb (forallb (fun e : option string =>
                      match e with
                      | Some s => negb (bool_decide (s ∈ NA_VALUES))
                      | None => true
                      end)) (body t)
  && negb (bool_decide ("" ∈ Str.strip <$> header t)).

Section Reread.

(** How [to_csv] writes a timestamp and a date. *)
Variables fmt_ts fmt_date : Z -> string.

Definition to_csv_cell (c : cell) : string :=
  match c with
  | Str s => s
  | NaN | NaT => ""
  | Timestamp ns => fmt_ts ns
  | DateV d => fmt_date d
  | CBool b => if b then "True" else "False"
  end.

(** [df.to_csv(path, index=False)] then [pd.read_csv(path, dtype=str)]; an
    empty label is read as [Unnamed: i]. *)
Definition csv_line (cols : list string) (r : gmap string cell)
  : list (option string) :=
  (fun c => read_field (to_csv_cell (at_col c r))) <$> cols.

Definition reread (df : frame) : table :=
  Table (imap (fun i c => if bool_decide (c = "") then "Unnamed: " ++ pretty i else c)
              (columns df))
        (csv_line (columns df) <$> rows df).

End Reread.

(** ** A strict reader and writer of ISO dates, for worked examples *)

Module Iso.

Definition days_from_civil (y m d : Z) : Z :=
  let y' := if (m <=? 2)%Z then (y - 1)%Z else y in
  let era := (y' / 400)%Z in
  let yoe := (y' - era * 400)%Z in
  let mp := if (m >? 2)%Z then (m - 3)%Z else (m + 9)%Z in
  let doy := ((153 * mp + 2) / 5 + d - 1)%Z in
  let doe := (yoe * 365 + yoe / 4 - yoe / 100 + doy)%Z in
  (era * 146097 + doe - 719468)%Z.

Definition civil_from_days (z : Z) : Z * Z * Z :=
  let z := (z + 719468)%Z in
  let era := (z / 146097)%Z in
  let doe := (z - era * 146097)%Z in
  let yoe := ((doe - doe / 1460 + doe / 36524 - doe / 146096) / 365)%Z in
  let doy := (doe - (365 * yoe + yoe / 4 - yoe / 100))%Z in
  let mp := ((5 * doy + 2) / 153)%Z in
  let d := (doy - (153 * mp + 2) / 5 + 1)%Z in
  let m := if (mp <? 10)%Z then (mp + 3)%Z else (mp - 9)%Z in
  let y := (yoe + era * 400)%Z in
  (if (m <=? 2)%Z then (y + 1)%Z else y, m, d).

Definition digit (c : ascii) : option Z :=
  let n := Z.of_N (Str.ord c) in
  if ((48 <=? n) && (n <=? 57))%Z then Some (n - 48)%Z else None.

Fixpoint number (acc : Z) (s : string) : option Z :=
  match s with
  | EmptyString => Some acc
  | String c s' => d ← digit c; number (10 * acc + d)%Z s'
  end.

(** [YYYY-MM-DD] and nothing else. *)
Definition parse_date (s : string) : option Z :=
  if bool_decide (String.length s = 10%nat /\ String.get 4 s = Some "-"%char
                  /\ String.get 7 s = Some "-"%char) then
    y ← number 0 (substring 0 4 s);
    m ← number 0 (substring 5 2 s);
    d ← number 0 (substring 8 2 s);
    let z := days_from_civil y m d in
    if bool_decide (civil_from_days z = (y, m, d)) then Some z else None
  else None.

Definition to_datetime (vals : list cell) (i : nat) : option Z :=
  match vals !! i with
  | Some (Str s) => (fun d => d * NS_PER_DAY)%Z <$> parse_date s
  | _ => None
  end.

Definition digit_char (n : Z) : ascii := ascii_of_N (Z.to_N (48 + n mod 10)).

Definition pad2 (n : Z) : string :=
  String (digit_char (n / 10)) (String (digit_char n) "").

Definition fmt_date (d : Z) : string :=
  let '(y, m, dd) := civil_from_days d in
  pad2 (y / 100) ++ pad2 y ++ "-" ++ pad2 m ++ "-" ++ pad2 dd.

Definition fmt_ts (ns : Z) : string := fmt_date (dt_date ns).

End Iso.

(** ** Worked inputs *)

Module Sample.

(** A lead list with padded labels, two e-mails that differ by case only, a
    duplicate, an invalid and a missing e-mail, an undated lead, and a second
    date-like and a second e-mail-like column. *)
Definition leads : table :=
  Table ["Email"; " Date "; "name"; "created_at"; "EMAIL"]
        [[Some "a@x.com"; Some "2024-01-01"; Some "Ann"; Some "2023-12-31"; Some "x@y.zz"];
         [Some "A@x.com"; Some "2024-01-03"; None; None; None];
         [Some " a@x.com "; Some "2024-01-08"; Some "Bob"; None; Some "a@x.com"];
         [Some "bad-email"; Some "2024-01-02"; Some "Cy"; None; None];
         [Some "c@x.com"; None; Some "Di"; Some "2024-01-05"; None];
         [None; Some "2024-01-07"; Some "Ed"; None; Some "e@x.com"]].

(** The scenario of the specification: four rows, one invalid, one
    duplicate, one undated. *)
Definition scenario : table :=
  Table ["email"; "date"]
        [[Some "a@x.com"; Some "2024-01-01"];
         [Some "a@x.com"; Some "2024-01-08"];
         [Some "bad-email"; Some "2024-01-02"];
         [Some "c@x.com"; None]].

(** A lead list without any date-like column. *)
Definition undated : table :=
  Table ["email"; "name"] [[Some "a@b.co"; Some "Ann"]; [Some "c@d.org"; None]].

(** A lead list without an e-mail column. *)
Definition no_email : table :=
  Table ["mail"; "date"] [[Some "a@b.co"; Some "2024-01-01"]].

Definition clean (t : table) : frame :=
  match clean_leads Iso.to_datetime t with
  | inr (out, _, _) => out
  | inl _ => Frame [] []
  end.

Definition sheets (t : table) : report :=
  match main Iso.to_datetime t with
  | Completed _ rep _ _ => rep
  | _ => Report [] [] 0 0
  end.

End Sample.

(** ** Reading the count tables *)

(** Strict order of two date keys. *)
Definition date_before (a b : cell) : Prop :=
  match a, b with
  | DateV x, DateV y => (x < y)%Z
  | _, _ => False
  end.

(** The [lead_week] that goes with the [lead_day] [d]: the weekly period of
    any instant of that day, then the date of its start. *)
Definition week_of_day (d : Z) : Z := dt_date (start_time ((d + 3) / 7)).

(** Is the day key [k] a day of the week that starts on [w]? *)
Definition in_week (w k : cell) : bool :=
  match k with
  | DateV d => bool_decide (DateV (week_of_day d) = w)
  | _ => false
  end.

(** The rows of a frame that hold [k] under label [c]. *)
Definition rows_with (c : string) (k : cell) (df : frame)
  : list (gmap string cell) :=
  List.filter (fun r => bool_decide (at_col c r = k)) (rows df).

(** ** More worked inputs *)

Module MoreSamples.

(** The scenario with its lines in reverse order. *)
Definition scenario_reversed : table :=
  Table (header Sample.scenario) (rev (body Sample.scenario)).

(** A lead list without a single valid e-mail. *)
Definition all_invalid : table :=
  Table ["email"; "date"]
        [[Some "nope"; None]; [None; Some "2024-01-01"]; [Some "a@b"; None]].

End MoreSamples.

(** * Properties *)

(** ** Strings *)

#[local] Arguments String.append : simpl nomatch.

Lemma append_nil_r (s : string) : s ++ "" = s.
Proof. induction s; simpl; congruence. Qed.

Lemma append_assoc (a b c : string) : (a ++ b) ++ c = a ++ b ++ c.
Proof. induction a; simpl; congruence. Qed.

Lemma all_chars_ext p q (s : string) :
  (forall c, p c = q c) -> Str.all_chars p s = Str.all_chars q s.
Proof. intros H. induction s; simpl; [done|]. by rewrite H, IHs. Qed.

Lemma last_char_app (a : string) c (b : string) :
  Str.last_char (a ++ String c b) = Str.last_char (String c b).
Proof.
  induction a as [|x a IH]; [done|].
  change (String x a ++ String c b) with (String x (a ++ String c b)).
  destruct (a ++ String c b) eqn:E.
  - destruct a; discriminate.
  - rewrite <- IH. reflexivity.
Qed.

Lemma rstrip_last (s : string) c :
  Str.last_char (Str.rstrip s) = Some c -> Str.isspace c = false.
Proof.
  induction s as [|x s IH]; simpl; [done|].
  destruct (Str.rstrip s) as [|y r] eqn:E.
  - destruct (Str.isspace x) eqn:Hx; simpl; [done|]. congruence.
  - intros H. apply IH. exact H.
Qed.

Lemma rstrip_idem (s : string) : Str.rstrip (Str.rstrip s) = Str.rstrip s.
Proof.
  induction s as [|x s IH]; simpl; [done|].
  destruct (Str.rstrip s) as [|y r] eqn:E.
  - destruct (Str.isspace x) eqn:Hx; simpl; [done|]. by rewrite Hx.
  - simpl in IH |- *. rewrite IH. reflexivity.
Qed.

Lemma lstrip_first (s : string) c :
  Str.first_char (Str.lstrip s) = Some c -> Str.isspace c = false.
Proof.
  induction s as [|x s IH]; simpl; [done|].
  destruct (Str.isspace x) eqn:Hx; [done|]. simpl. congruence.
Qed.

Lemma rstrip_first (s : string) c :
  Str.first_char s = Some c -> Str.isspace c = false ->
  Str.first_char (Str.rstrip s) = Some c.
Proof.
  destruct s as [|x s]; simpl; [done|]. intros [= ->] Hc.
  destruct (Str.rstrip s); [by rewrite Hc|done].
Qed.

Lemma lstrip_fixed (s : string) :
  (forall c, Str.first_char s = Some c -> Str.isspace c = false) ->
  Str.lstrip s = s.
Proof.
  destruct s as [|x s]; simpl; [done|]. intros H. by rewrite (H x).
Qed.

Lemma strip_first (s : string) c :
  Str.first_char (Str.strip s) = Some c -> Str.isspace c = false.
Proof.
  unfold Str.strip. intros H.
  destruct (Str.lstrip s) as [|x u] eqn:E; [done|].
  assert (Hx : Str.isspace x = false) by (apply (lstrip_first s); by rewrite E).
  rewrite (rstrip_first (String x u) x) in H by done. congruence.
Qed.

Lemma strip_idem (s : string) : Str.strip (Str.strip s) = Str.strip s.
Proof.
  unfold Str.strip at 1.
  rewrite lstrip_fixed by apply strip_first.
  unfold Str.strip. apply rstrip_idem.
Qed.

Lemma strip_last (s : string) c :
  Str.last_char (Str.strip s) = Some c -> Str.isspace c = false.
Proof. apply rstrip_last. Qed.

(** ** The e-mail pattern *)

Lemma plus_set_spec items pos s k :
  plus_set items pos s k = true <->
  exists pre rest : string,
    s = pre ++ rest /\ pre <> ""
    /\ Str.all_chars (in_set items) pre = true
    /\ k (pos + String.length pre)%nat rest = true.
Proof.
  revert pos. induction s as [|c s IH]; intros pos; simpl.
  - split; [done|]. intros (pre & rest & H & Hne & _).
    destruct pre; [done|discriminate].
  - rewrite andb_true_iff, orb_true_iff, IH. split.
    + intros [Hc [(pre & rest & -> & Hne & Hall & Hk) | Hk]].
      * exists (String c pre), rest. simpl. rewrite Hc, Hall.
        replace (pos + S (String.length pre))%nat
          with (S pos + String.length pre)%nat by lia. done.
      * exists (String c ""), s. simpl. rewrite Hc.
        replace (pos + 1)%nat with (S pos) by lia. done.
    + intros (pre & rest & H & Hne & Hall & Hk).
      destruct pre as [|c' pre]; [done|]. simpl in H, Hall, Hk.
      injection H as -> ->. apply andb_true_iff in Hall as [Hc Hall].
      split; [done|].
      replace (pos + S (String.length pre))%nat
        with (S pos + String.length pre)%nat in Hk by lia.
      destruct pre as [|c'' pre].
      * right. simpl in Hk. by rewrite Nat.add_0_r in Hk.
      * left. exists (String c'' pre), rest. done.
Qed.

Lemma local_set_spec c : in_set LOCAL_SET c = EmailSpec.local_char c.
Proof. by destruct c as [[] [] [] [] [] [] [] []]. Qed.

Lemma domain_set_spec c : in_set DOMAIN_SET c = EmailSpec.domain_char c.
Proof. by destruct c as [[] [] [] [] [] [] [] []]. Qed.

Lemma tld_set_spec c : in_set TLD_SET c = EmailSpec.tld_char c.
Proof. by destruct c as [[] [] [] [] [] [] [] []]. Qed.

Lemma at_end_spec s : at_end s = true <-> s = "" \/ s = String "010" "".
Proof.
  destruct s as [|c [|c' s]]; simpl.
  - split; auto.
  - rewrite Ascii.eqb_eq. split; [intros ->; auto|].
    intros [H | H]; [discriminate|congruence].
  - split; [discriminate|]. intros [H | H]; discriminate.
Qed.

(** What [EMAIL_REGEX.match] accepts: the shape, then the end of the text or
    one final newline. *)
Lemma email_regex_matches s :
  matches EMAIL_REGEX s = true <->
  exists u, EmailSpec.email_shape u /\ (s = u \/ s = u ++ String "010" "").
Proof.
  unfold matches, EMAIL_REGEX. simpl. split.
  - intros H. apply plus_set_spec in H as (l & r1 & -> & Hl & Hal & H).
    destruct r1 as [|c1 r1]; [done|].
    apply andb_true_iff in H as [Hc1 H]. apply Ascii.eqb_eq in Hc1 as ->.
    apply plus_set_spec in H as (d & r2 & -> & Hd & Had & H).
    destruct r2 as [|c2 r2]; [done|].
    apply andb_true_iff in H as [Hc2 H]. apply Ascii.eqb_eq in Hc2 as ->.
    apply plus_set_spec in H as (t & r3 & -> & Ht & Hat & H).
    rewrite andb_true_r in H. apply at_end_spec in H.
    exists (l ++ "@" ++ d ++ "." ++ t). split.
    + exists l, d, t. repeat split; try done.
      * by rewrite <- (all_chars_ext _ _ _ local_set_spec).
      * by rewrite <- (all_chars_ext _ _ _ domain_set_spec).
      * by rewrite <- (all_chars_ext _ _ _ tld_set_spec).
    + destruct H as [-> | ->]; [left|right].
      * by rewrite append_nil_r.
      * simpl. rewrite !append_assoc. simpl. rewrite !append_assoc. reflexivity.
  - intros (u & (l & d & t & -> & Hl & Hd & Ht & Hal & Had & Hat) & Hs).
    assert (exists rest, s = l ++ String "@" (d ++ String "." (t ++ rest))
                         /\ at_end rest = true) as (rest & -> & Hend).
    { destruct Hs as [-> | ->]; [exists ""|exists (String "010" "")]; simpl.
      - by rewrite append_nil_r.
      - rewrite !append_assoc. simpl. rewrite !append_assoc. done. }
    apply plus_set_spec. exists l, (String "@" (d ++ String "." (t ++ rest))).
    split; [done|]. split; [done|].
    split; [by rewrite (all_chars_ext _ _ _ local_set_spec)|].
    rewrite Ascii.eqb_refl. simpl.
    apply plus_set_spec. exists d, (String "." (t ++ rest)).
    split; [done|]. split; [done|].
    split; [by rewrite (all_chars_ext _ _ _ domain_set_spec)|].
    rewrite Ascii.eqb_refl. simpl.
    apply plus_set_spec. exists t, rest.
    split; [done|]. split; [done|].
    split; [by rewrite (all_chars_ext _ _ _ tld_set_spec)|].
    by rewrite Hend.
Qed.

Lemma email_shape_nonempty s : EmailSpec.email_shape s -> s <> "".
Proof. intros (l & d & t & -> & Hl & _). destruct l; [done|discriminate]. Qed.

(** On a trimmed text the final-newline case of [$] cannot arise. *)
Lemma email_regex_strip s :
  matches EMAIL_REGEX (Str.strip s) = true <-> EmailSpec.email_shape (Str.strip s).
Proof.
  rewrite email_regex_matches. split.
  - intros (u & Hu & [-> | Hs]); [done|].
    assert (H : Str.last_char (Str.strip s) = Some "010"%char).
    { rewrite Hs. by rewrite last_char_app. }
    apply strip_last in H. discriminate.
  - intros H. exists (Str.strip s). auto.
Qed.

Lemma valid_email_spec (e : option string) :
  valid_email e = true <->
  exists s, e = Some s /\ Str.strip s <> "" /\ EmailSpec.email_shape (Str.strip s).
Proof.
  destruct e as [s|]; simpl.
  - rewrite email_regex_strip. split.
    + intros H. exists s. split; [done|]. split; [|done].
      by apply email_shape_nonempty.
    + intros (s' & [= <-] & _ & H). done.
  - split; [done|]. by intros (s & ? & _).
Qed.

(** The value the script validates is the trimmed text of the field; the
    verdict is the one of [valid_email] on the field as read. *)
Lemma valid_email_trimmed (e : option string) :
  valid_email (Some (Str.strip (astype_str e))) = valid_email e.
Proof. destruct e as [s|]; simpl; [by rewrite strip_idem|done]. Qed.

(** C2. A row is classified valid exactly when its e-mail field is present
    and its trimmed text is non-empty and has, as a whole, the shape
    local@domain.tld over the three character sets; a missing or empty field
    is invalid; the four boundary cases of the specification. *)
Theorem C2_valid_email_iff_shape :
  (forall e : option string,
      valid_email (Some (Str.strip (astype_str e))) = true <->
      exists s, e = Some s /\ Str.strip s <> ""
                /\ EmailSpec.email_shape (Str.strip s))
  /\ (forall e : option string,
         valid_email e = true <->
         exists s, e = Some s /\ Str.strip s <> ""
                   /\ EmailSpec.email_shape (Str.strip s))
  /\ valid_email None = false
  /\ valid_email (Some "") = false
  /\ valid_email (Some "a@b.co") = true
  /\ valid_email (Some "a@b") = false
  /\ valid_email (Some "@b.co") = false
  /\ valid_email (Some " a@b.co ") = true.
Proof.
  split; [|split; [|done]].
  - intros e. rewrite valid_email_trimmed. apply valid_email_spec.
  - apply valid_email_spec.
Qed.

(** ** Lists and frames *)

Lemma zip_with_diag {A B C} (f : A -> B -> C) (h : A -> B) (l : list A) :
  zip_with f l (h <$> l) = (fun x => f x (h x)) <$> l.
Proof. induction l as [|x l IH]; csimpl; [done|by rewrite IH]. Qed.

Lemma fmap_zip_with' {A B C D} (f : A -> B -> C) (g : C -> D) l k :
  g <$> zip_with f l k = zip_with (fun x y => g (f x y)) l k.
Proof. revert k. induction l; intros [|y k]; csimpl; try done. by rewrite IHl. Qed.

Lemma zip_with_fmap_left {A A' B C} (f : A' -> B -> C) (h : A -> A') l k :
  zip_with f (h <$> l) k = zip_with (fun x y => f (h x) y) l k.
Proof. revert k. induction l; intros [|y k]; csimpl; try done. by rewrite IHl. Qed.

Lemma zip_with_ext' {A B C} (f g : A -> B -> C) l k :
  (forall x y, f x y = g x y) -> zip_with f l k = zip_with g l k.
Proof. intros H. revert k. induction l; intros [|y k]; csimpl; try done. by rewrite H, IHl. Qed.

Lemma select_fmap {A B} (f : A -> B) (m : list bool) (l : list A) :
  select m (f <$> l) = f <$> select m l.
Proof.
  revert l. induction m as [|b m IH]; intros [|x l]; csimpl; try done.
  destruct b; csimpl; by rewrite IH.
Qed.

Lemma select_length {A} (m : list bool) (l : list A) :
  (length (select m l) <= length l)%nat.
Proof.
  revert l. induction m as [|b m IH]; intros [|x l]; simpl; try lia.
  specialize (IH l). destruct b; simpl; lia.
Qed.

Lemma select_filter {A} (p : A -> bool) (l : list A) :
  select (p <$> l) l = List.filter p l.
Proof. induction l as [|x l IH]; csimpl; [done|]. destruct (p x); by rewrite IH. Qed.

Lemma select_elem_of {A} (m : list bool) (l : list A) x :
  x ∈ select m l -> x ∈ l.
Proof.
  revert l. induction m as [|b m IH]; intros [|y l]; simpl; try done.
  - by intros ?%elem_of_nil.
  - destruct b; rewrite ?elem_of_cons; naive_solver.
Qed.

(** ** Labels *)

Lemma first_label_app p l x :
  p x = false -> first_label p (l ++ [x]) = first_label p l.
Proof.
  intros Hx. unfold first_label. induction l as [|y l IH]; simpl.
  - by rewrite Hx.
  - by destruct (p y).
Qed.

Lemma first_label_with_label p c l :
  p c = false -> first_label p (with_label c l) = first_label p l.
Proof.
  intros Hc. unfold with_label. case_bool_decide; [done|].
  by apply first_label_app.
Qed.

Lemma first_label_filter p c l :
  p c = false ->
  first_label p (List.filter (fun c' => negb (String.eqb c' c)) l)
  = first_label p l.
Proof.
  intros Hc. unfold first_label. induction l as [|y l IH]; simpl; [done|].
  destruct (String.eqb_spec y c) as [->|Hne]; simpl.
  - by rewrite Hc.
  - by destruct (p y).
Qed.

Lemma first_label_Some p l c :
  first_label p l = Some c -> c ∈ l /\ p c = true.
Proof.
  intros H. apply find_some in H as [H1 H2].
  by apply list_elem_of_In in H1.
Qed.

Lemma first_label_None p l :
  first_label p l = None <-> forall c, c ∈ l -> p c = false.
Proof.
  unfold first_label. split.
  - intros H c Hc. apply list_elem_of_In in Hc. by eapply find_none.
  - intros H. induction l as [|y l IH]; simpl; [done|].
    rewrite (H y) by left. apply IH. intros c Hc. apply H. by right.
Qed.

(** The first match by position. *)
Lemma first_label_first p (l : list string) c :
  first_label p l = Some c <->
  exists i : nat, l !! i = Some c /\ p c = true
    /\ forall (j : nat) (y : string), (j < i)%nat -> l !! j = Some y -> p y = false.
Proof.
  unfold first_label. induction l as [|y l IH]; simpl.
  - split; [done|]. by intros (i & H & _).
  - destruct (p y) eqn:Hy.
    + split.
      * intros [= ->]. exists 0%nat. split; [done|]. split; [done|]. lia.
      * intros (i & Hi & Hc & Hlt). destruct i as [|i]; [naive_solver|].
        specialize (Hlt 0%nat y). simpl in Hlt.
        rewrite Hlt in Hy; [done|lia|done].
    + rewrite IH. split.
      * intros (i & Hi & Hc & Hlt). exists (S i). split; [done|]. split; [done|].
        intros [|j] z Hj Hz; simpl in Hz; [naive_solver|].
        apply (Hlt j); [lia|done].
      * intros (i & Hi & Hc & Hlt). destruct i as [|i]; simpl in Hi.
        { injection Hi as ->. congruence. }
        exists i. split; [done|]. split; [done|].
        intros j z Hj Hz. apply (Hlt (S j)); [lia|done].
Qed.

Lemma email_label_not_date c : is_email_label c = true -> is_date_label c = false.
Proof.
  unfold is_email_label, is_date_label. intros H%String.eqb_eq. by rewrite H.
Qed.

Lemma date_label_not_email c : is_date_label c = true -> is_email_label c = false.
Proof.
  intros H. destruct (is_email_label c) eqn:E; [|done].
  apply email_label_not_date in E. congruence.
Qed.

Lemma date_label_is_date cols : is_date_label (date_label cols) = true.
Proof.
  unfold date_label. destruct (first_label is_date_label cols) as [c|] eqn:E; [|done].
  by apply first_label_Some in E as [_ ?].
Qed.

Lemma with_label_elem c l x : x ∈ l -> x ∈ with_label c l.
Proof. unfold with_label. case_bool_decide; set_solver. Qed.

Lemma with_label_self c l : c ∈ with_label c l.
Proof. unfold with_label. case_bool_decide; set_solver. Qed.

Lemma with_label_elem_inv c l x : x ∈ with_label c l -> x = c \/ x ∈ l.
Proof. unfold with_label. case_bool_decide; set_solver. Qed.

(** ** [clean_leads], row by row *)

Lemma zip_with_fmap_same {A B C D} (f : B -> C -> D) (h : A -> B) (g : A -> C)
      (l : list A) :
  zip_with f (h <$> l) (g <$> l) = (fun x => f (h x) (g x)) <$> l.
Proof. induction l as [|x l IH]; csimpl; [done|by rewrite IH]. Qed.

Lemma email_label_plain ec :
  is_email_label ec = true ->
  ec <> "__valid_email" /\ ec <> "lead_day" /\ ec <> "lead_week".
Proof. intros H. repeat split; intros ->; discriminate. Qed.

Lemma date_label_plain dc :
  is_date_label dc = true ->
  dc <> "__valid_email" /\ dc <> "lead_day" /\ dc <> "lead_week".
Proof. intros H. repeat split; intros ->; discriminate. Qed.

Lemma at_col_base_valid cols ec r :
  at_col "__valid_email" (base_row cols ec r)
  = CBool (valid_email (Some (key_of cols ec r))).
Proof. unfold at_col, base_row. by rewrite lookup_insert_eq. Qed.

Lemma at_col_base_email cols ec r :
  is_email_label ec = true ->
  at_col ec (base_row cols ec r) = Str (key_of cols ec r).
Proof.
  intros [H _]%email_label_plain. unfold at_col, base_row.
  rewrite lookup_insert_ne by done. by rewrite lookup_insert_eq.
Qed.

Lemma at_col_final_day cols ec dc r v :
  at_col "lead_day" (final_row cols ec dc r v) = lead_day_of v.
Proof.
  unfold at_col, final_row. rewrite lookup_delete_ne by done.
  rewrite lookup_insert_ne by done. by rewrite lookup_insert_eq.
Qed.

Lemma at_col_final_week cols ec dc r v :
  at_col "lead_week" (final_row cols ec dc r v) = lead_week_of v.
Proof.
  unfold at_col, final_row. rewrite lookup_delete_ne by done.
  by rewrite lookup_insert_eq.
Qed.

Lemma at_col_final_date cols ec dc r v :
  is_date_label dc = true ->
  at_col dc (final_row cols ec dc r v) = v.
Proof.
  intros (H1 & H2 & H3)%date_label_plain. unfold at_col, final_row.
  rewrite lookup_delete_ne by done. rewrite !lookup_insert_ne by done.
  by rewrite lookup_insert_eq.
Qed.

Lemma at_col_final_email cols ec dc r v :
  is_email_label ec = true -> is_date_label dc = true ->
  at_col ec (final_row cols ec dc r v) = Str (key_of cols ec r).
Proof.
  intros He Hd. pose proof (email_label_plain _ He) as (H1 & H2 & H3).
  assert (dc <> ec) by (intros ->; apply email_label_not_date in He; congruence).
  unfold at_col, final_row, base_row.
  rewrite lookup_delete_ne by done. rewrite !lookup_insert_ne by done.
  by rewrite lookup_insert_eq.
Qed.

(** Any other column keeps the value read from the file. *)
Lemma final_row_other cols ec dc r v c :
  c <> "__valid_email" -> c <> "lead_week" -> c <> "lead_day" -> c <> dc ->
  c <> ec ->
  final_row cols ec dc r v !! c = row_of cols r !! c.
Proof.
  intros. unfold final_row, base_row.
  rewrite lookup_delete_ne by done. by rewrite !lookup_insert_ne by done.
Qed.

Lemma final_row_marker cols ec dc r v :
  final_row cols ec dc r v !! "__valid_email" = None.
Proof. unfold final_row. by rewrite lookup_delete_eq. Qed.

Section Rows.

Variable to_datetime : list cell -> nat -> option Z.

Lemma frame_validated cols ec lines :
  ec ∈ cols ->
  set_col "__valid_email"
    ((fun e => CBool (valid_email (Some e))) <$> (key_of cols ec <$> lines))
    (set_col ec (Str <$> (key_of cols ec <$> lines))
             (Frame cols (row_of cols <$> lines)))
  = Frame (with_label "__valid_email" cols) (base_row cols ec <$> lines).
Proof.
  intros Hin. unfold set_col at 2. cbn [columns rows].
  rewrite bool_decide_true by done.
  unfold set_col, with_label. cbn [columns rows]. f_equal.
  rewrite <- !list_fmap_compose. by rewrite !zip_with_fmap_same.
Qed.

Lemma frame_valid c1 cols ec lines :
  filter_rows (as_bool <$> col "__valid_email" (Frame c1 (base_row cols ec <$> lines)))
              (Frame c1 (base_row cols ec <$> lines))
  = Frame c1 (base_row cols ec <$> valid_lines cols ec lines).
Proof.
  unfold filter_rows, col, valid_lines. cbn [columns rows]. f_equal.
  rewrite <- !list_fmap_compose, select_fmap. do 2 f_equal.
  apply list_fmap_ext. intros _ r _. cbn. by rewrite at_col_base_valid.
Qed.

Lemma frame_dedup c1 cols ec lines :
  is_email_label ec = true ->
  drop_duplicates ec (Frame c1 (base_row cols ec <$> lines))
  = Frame c1 (base_row cols ec <$>
                select (negb <$> duplicated ((fun r => Str (key_of cols ec r)) <$> lines))
                       lines).
Proof.
  intros He. unfold drop_duplicates, filter_rows, col. cbn [columns rows]. f_equal.
  rewrite <- !list_fmap_compose, select_fmap. do 4 f_equal.
  apply list_fmap_ext. intros _ r _. cbn. by rewrite at_col_base_email.
Qed.

Lemma frame_finish c1 cols ec dc kept dvals :
  is_date_label dc = true ->
  let f1 := set_col dc dvals (Frame c1 (base_row cols ec <$> kept)) in
  let f2 := set_col "lead_day" (lead_day_of <$> col dc f1) f1 in
  drop_col "__valid_email"
           (set_col "lead_week" (lead_week_of <$> col dc f2) f2)
  = Frame (List.filter (fun c => negb (String.eqb c "__valid_email"))
             (with_label "lead_week" (with_label "lead_day" (with_label dc c1))))
          (zip_with (final_row cols ec dc) kept dvals).
Proof.
  intros (H1 & H2 & H3)%date_label_plain f1 f2.
  unfold drop_col, set_col, col in *. subst f1 f2. cbn [columns rows].
  f_equal.
  rewrite <- !list_fmap_compose. rewrite !zip_with_diag, zip_with_fmap_left.
  rewrite <- !list_fmap_compose, fmap_zip_with'.
  apply zip_with_ext'. intros r v. cbn. unfold final_row, at_col.
  rewrite lookup_insert_ne by done. by rewrite !lookup_insert_eq.
Qed.

Lemma len_fmap {A} c1 (f : A -> gmap string cell) (l : list A) :
  len (Frame c1 (f <$> l)) = Z.of_nat (length l).
Proof. unfold len. cbn. by rewrite length_fmap. Qed.

Lemma clean_leads_rows t ec :
  let cols := Str.strip <$> header t in
  first_label is_email_label cols = Some ec ->
  let valid := valid_lines cols ec (body t) in
  let kept := kept_lines cols ec (body t) in
  clean_leads to_datetime t
  = inr (Frame (final_columns cols)
               (zip_with (final_row cols ec (date_label cols)) kept
                         (date_values to_datetime cols ec kept)),
         (Z.of_nat (length (body t)) - Z.of_nat (length valid))%Z,
         (Z.of_nat (length valid) - Z.of_nat (length kept))%Z).
Proof.
  intros cols Hec valid kept.
  pose proof (first_label_Some _ _ _ Hec) as [Hin He].
  unfold clean_leads. cbv zeta.
  change (columns (renamed t)) with cols. rewrite Hec.
  change (renamed t) with (Frame cols (row_of cols <$> body t)).
  change (fun r => Str.strip (astype_str (raw_at cols ec r))) with (key_of cols ec).
  rewrite frame_validated by done.
  rewrite frame_valid, frame_dedup by done.
  fold valid. change (select _ valid) with kept.
  rewrite !len_fmap. cbn [columns rows].
  rewrite first_label_with_label by done.
  unfold final_columns, date_values, date_label.
  destruct (first_label is_date_label cols) as [dc|] eqn:Hdc; cbn [default].
  - apply first_label_Some in Hdc as [_ Hd].
    rewrite frame_finish by done. unfold col. cbn [rows].
    by rewrite <- list_fmap_compose.
  - rewrite frame_finish by done. by rewrite length_fmap.
Qed.

End Rows.

(** ** Deduplication *)

Lemma select_lookup {A} (m : list bool) (l : list A) x :
  x ∈ select m l <-> exists i : nat, m !! i = Some true /\ l !! i = Some x.
Proof.
  revert l. induction m as [|b m IH]; intros [|y l]; simpl.
  - rewrite elem_of_nil. split; [done|]. by intros (i & H & _).
  - rewrite elem_of_nil. split; [done|]. by intros (i & H & _).
  - rewrite elem_of_nil. split; [done|]. intros (i & _ & H). by destruct i.
  - destruct b.
    + rewrite elem_of_cons, IH. split.
      * intros [-> | (i & H1 & H2)]; [by exists 0%nat|by exists (S i)].
      * intros ([|i] & H1 & H2); simpl in *; [left; congruence|right; eauto].
    + rewrite IH. split.
      * intros (i & H1 & H2). by exists (S i).
      * intros ([|i] & H1 & H2); simpl in *; [done|eauto].
Qed.

Lemma select_sublist {A} (m : list bool) (l : list A) : sublist (select m l) l.
Proof.
  revert l. induction m as [|b m IH]; intros [|y l]; simpl;
    try apply sublist_nil_l.
  destruct b; [apply sublist_skip|apply sublist_cons]; apply IH.
Qed.

Lemma duplicated_from_length seen keys :
  length (duplicated_from seen keys) = length keys.
Proof. revert seen. induction keys as [|k keys IH]; intros seen; simpl; auto. Qed.

(** Position [j] is marked exactly when its value was seen before. *)
Lemma duplicated_from_lookup seen (keys : list cell) (j : nat) k :
  keys !! j = Some k ->
  exists b, duplicated_from seen keys !! j = Some b
    /\ (b = true <-> k ∈ seen \/ exists i : nat, (i < j)%nat /\ keys !! i = Some k).
Proof.
  revert seen j. induction keys as [|x keys IH]; intros seen j Hj; [done|].
  destruct j as [|j]; simpl in *.
  - injection Hj as ->. exists (bool_decide (k ∈ seen)). split; [done|].
    rewrite bool_decide_eq_true. split; [auto|].
    intros [H | (i & Hi & _)]; [done|lia].
  - destruct (IH (x :: seen) j Hj) as (b & Hb & Hiff). exists b. split; [done|].
    rewrite Hiff, elem_of_cons. split.
    + intros [[-> | H] | (i & Hi & Hk)]; [right; exists 0%nat; split; [lia|done]|by left|].
      right. exists (S i). split; [lia|done].
    + intros [H | (i & Hi & Hk)]; [by left; right|].
      destruct i as [|i]; simpl in Hk.
      * left; left. congruence.
      * right. exists i. split; [lia|done].
Qed.

Lemma duplicated_lookup (keys : list cell) (j : nat) k :
  keys !! j = Some k ->
  exists b, duplicated keys !! j = Some b
    /\ (b = true <-> exists i : nat, (i < j)%nat /\ keys !! i = Some k).
Proof.
  intros H. destruct (duplicated_from_lookup [] keys j k H) as (b & Hb & Hiff).
  exists b. split; [done|]. rewrite Hiff. rewrite elem_of_nil. tauto.
Qed.

(** The values kept are pairwise distinct and none was seen before. *)
Lemma dedup_from_NoDup seen (keys : list cell) :
  NoDup (select (negb <$> duplicated_from seen keys) keys)
  /\ forall k, k ∈ select (negb <$> duplicated_from seen keys) keys -> k ∉ seen.
Proof.
  revert seen. induction keys as [|x keys IH]; intros seen; csimpl.
  - split; [constructor|]. by intros k ?%elem_of_nil.
  - destruct (IH (x :: seen)) as [Hnd Hns].
    case_bool_decide as Hx; csimpl.
    + split; [done|]. intros k Hk. specialize (Hns k Hk). set_solver.
    + split.
      * constructor; [|done]. intros Hin. specialize (Hns x Hin). set_solver.
      * intros k [-> | Hk]%elem_of_cons; [done|]. specialize (Hns k Hk). set_solver.
Qed.

(** Every value that was not seen before is kept. *)
Lemma dedup_from_covers seen (keys : list cell) k :
  k ∈ keys -> k ∉ seen -> k ∈ select (negb <$> duplicated_from seen keys) keys.
Proof.
  revert seen. induction keys as [|x keys IH]; intros seen Hin Hns; csimpl.
  - by apply elem_of_nil in Hin.
  - case_bool_decide as Hx; csimpl.
    + apply IH; [|set_solver]. set_solver.
    + destruct (decide (k = x)) as [->|Hne]; [by left|].
      right. apply IH; set_solver.
Qed.

Lemma dedup_NoDup (keys : list cell) :
  NoDup (select (negb <$> duplicated keys) keys).
Proof. apply dedup_from_NoDup. Qed.

Lemma dedup_covers (keys : list cell) k :
  k ∈ select (negb <$> duplicated keys) keys <-> k ∈ keys.
Proof.
  split; [apply select_elem_of|]. intros H. apply dedup_from_covers; [done|].
  by intros ?%elem_of_nil.
Qed.

Lemma col_drop_duplicates c df :
  col c (drop_duplicates c df)
  = select (negb <$> duplicated (col c df)) (col c df).
Proof.
  unfold drop_duplicates, filter_rows, col. cbn [rows]. by rewrite select_fmap.
Qed.

(** C3. [drop_duplicates] keeps one row per distinct key, the first one in
    input order and as it stands; a row whose key occurred at an earlier
    position is discarded; the rows kept stay in input order. *)
Theorem C3_dedup_first_wins (c : string) (df : frame) :
  let out := drop_duplicates c df in
  columns out = columns df
  /\ NoDup (col c out)
  /\ (forall k, k ∈ col c out <-> k ∈ col c df)
  /\ sublist (rows out) (rows df)
  /\ (forall r, r ∈ rows out ->
        exists i : nat, rows df !! i = Some r
          /\ forall (j : nat) r', (j < i)%nat -> rows df !! j = Some r' ->
                         at_col c r' <> at_col c r)
  /\ (forall (i : nat) r, rows df !! i = Some r ->
        (forall (j : nat) r', (j < i)%nat -> rows df !! j = Some r' ->
                     at_col c r' <> at_col c r) ->
        r ∈ rows out)
  /\ (forall (i j : nat) ri rj, (i < j)%nat ->
        rows df !! i = Some ri -> rows df !! j = Some rj ->
        at_col c ri = at_col c rj ->
        duplicated (col c df) !! j = Some true)
  /\ rows out = select (negb <$> duplicated (col c df)) (rows df)
  /\ length (duplicated (col c df)) = length (rows df).
Proof.
  intros out. subst out.
  assert (Hmask : forall (j : nat) r, rows df !! j = Some r ->
            exists b, duplicated (col c df) !! j = Some b
              /\ (b = true <-> exists (i : nat) r', (i < j)%nat
                                /\ rows df !! i = Some r'
                                /\ at_col c r' = at_col c r)).
  { intros j r Hr.
    destruct (duplicated_lookup (col c df) j (at_col c r)) as (b & Hb & Hiff).
    { unfold col. by rewrite list_lookup_fmap, Hr. }
    exists b. split; [done|]. rewrite Hiff. unfold col. split.
    - intros (i & Hi & Hk). rewrite list_lookup_fmap in Hk.
      destruct (rows df !! i) as [r'|] eqn:E; [|done].
      injection Hk as Hk. eauto.
    - intros (i & r' & Hi & Hr' & Hk). exists i. split; [done|].
      rewrite list_lookup_fmap, Hr'. simpl. congruence. }
  split; [done|]. split; [rewrite col_drop_duplicates; apply dedup_NoDup|].
  split; [intros k; rewrite col_drop_duplicates; apply dedup_covers|].
  split; [apply select_sublist|].
  split; [|split; [|split; [|split; [done|]]]].
  - intros r Hr. unfold drop_duplicates, filter_rows in Hr. cbn [rows] in Hr.
    apply select_lookup in Hr as (i & Hm & Hi). exists i. split; [done|].
    intros j r' Hj Hr' Heq. destruct (Hmask i r Hi) as (b & Hb & Hiff).
    rewrite list_lookup_fmap, Hb in Hm. injection Hm as Hm.
    destruct b; [done|]. assert (false = true); [|done].
    apply Hiff. eauto.
  - intros i r Hi Hfirst. unfold drop_duplicates, filter_rows. cbn [rows].
    apply select_lookup. exists i. split; [|done].
    destruct (Hmask i r Hi) as (b & Hb & Hiff).
    rewrite list_lookup_fmap, Hb. destruct b; [|done].
    destruct Hiff as [Hiff _]. destruct (Hiff eq_refl) as (j & r' & Hj & Hr' & Heq).
    by destruct (Hfirst j r' Hj Hr').
  - intros i j ri rj Hij Hi Hj Heq. destruct (Hmask j rj Hj) as (b & Hb & Hiff).
    rewrite Hb. f_equal. apply Hiff. eauto.
  - unfold duplicated, col. by rewrite duplicated_from_length, length_fmap.
Qed.

(** ** What [clean_leads] returns *)

Section CleanLeads.

Variable to_datetime : list cell -> nat -> option Z.

Lemma date_values_length cols ec kept :
  length (date_values to_datetime cols ec kept) = length kept.
Proof.
  unfold date_values, parsed.
  destruct (first_label is_date_label cols).
  - by rewrite length_fmap, length_seq, length_fmap.
  - by rewrite length_replicate.
Qed.

Lemma clean_leads_error t e :
  clean_leads to_datetime t = inl e <->
  first_label is_email_label (Str.strip <$> header t) = None
  /\ e = ValueError "Input CSV must contain an 'email' column".
Proof.
  destruct (first_label is_email_label (Str.strip <$> header t)) as [ec|] eqn:E.
  - rewrite (clean_leads_rows to_datetime t ec E). split; [done|]. by intros [? _].
  - unfold clean_leads. change (columns (renamed t)) with (Str.strip <$> header t).
    rewrite E. split; [intros [= <-]; done|]. by intros [_ ->].
Qed.

Lemma clean_leads_ok t out ic rd :
  clean_leads to_datetime t = inr (out, ic, rd) ->
  let cols := Str.strip <$> header t in
  exists ec,
    first_label is_email_label cols = Some ec
    /\ out = Frame (final_columns cols)
                   (zip_with (final_row cols ec (date_label cols))
                             (kept_lines cols ec (body t))
                             (date_values to_datetime cols ec
                                          (kept_lines cols ec (body t))))
    /\ ic = (Z.of_nat (length (body t))
             - Z.of_nat (length (valid_lines cols ec (body t))))%Z
    /\ rd = (Z.of_nat (length (valid_lines cols ec (body t)))
             - Z.of_nat (length (kept_lines cols ec (body t))))%Z.
Proof.
  intros H cols.
  destruct (first_label is_email_label cols) as [ec|] eqn:E.
  - rewrite (clean_leads_rows to_datetime t ec E) in H.
    injection H as <- <- <-. by exists ec.
  - assert (clean_leads to_datetime t
            = inl (ValueError "Input CSV must contain an 'email' column"))
      by (by apply clean_leads_error).
    congruence.
Qed.

(** Every Clean Record is a kept line with its parsed date. *)
Lemma clean_row_inv cols ec dc kept dvals r :
  r ∈ zip_with (final_row cols ec dc) kept dvals ->
  exists line v, line ∈ kept /\ r = final_row cols ec dc line v.
Proof.
  intros (line & v & -> & Hl & _)%elem_of_zip_with. eauto.
Qed.

Lemma valid_lines_filter cols ec lines :
  valid_lines cols ec lines
  = List.filter (fun r => valid_email (raw_at cols ec r)) lines.
Proof.
  unfold valid_lines. rewrite select_filter.
  apply List.filter_ext. intros r. unfold key_of. apply valid_email_trimmed.
Qed.

Lemma out_length cols ec dc kept :
  length (zip_with (final_row cols ec dc) kept
                   (date_values to_datetime cols ec kept)) = length kept.
Proof. rewrite length_zip_with, date_values_length. lia. Qed.

(** C6. The two counters balance: the invalid rows and the valid-email
    rows make up the input, and the duplicates removed and the Clean
    Records make up the valid-email rows. *)
Theorem C6_counters_conserve t out ic rd :
  wf_table t = true ->
  clean_leads to_datetime t = inr (out, ic, rd) ->
  (ic + Z.of_nat (length (valid_email_rows t)) = Z.of_nat (length (body t)))%Z
  /\ (rd + len out = Z.of_nat (length (valid_email_rows t)))%Z
  /\ (0 <= ic)%Z /\ (0 <= rd)%Z.
Proof.
  intros _ H. apply clean_leads_ok in H as (ec & Hec & -> & -> & ->).
  unfold valid_email_rows, len. rewrite Hec. cbn [rows].
  rewrite out_length, <- valid_lines_filter.
  pose proof (select_length
    ((fun r => valid_email (Some (key_of (Str.strip <$> header t) ec r))) <$> body t)
    (body t)) as H1.
  pose proof (select_length
    (negb <$> duplicated ((fun r => Str (key_of (Str.strip <$> header t) ec r))
                            <$> valid_lines (Str.strip <$> header t) ec (body t)))
    (valid_lines (Str.strip <$> header t) ec (body t))) as H2.
  fold (valid_lines (Str.strip <$> header t) ec (body t)) in H1.
  fold (kept_lines (Str.strip <$> header t) ec (body t)) in H2.
  lia.
Qed.

Lemma week_start_date p : dt_date (start_time p) = (7 * p - 3)%Z.
Proof. unfold dt_date, start_time. by rewrite Z.div_mul. Qed.

Lemma lead_day_week_of v :
  (lead_day_of v = NaT /\ lead_week_of v = NaT)
  \/ exists d w, lead_day_of v = DateV d /\ lead_week_of v = DateV w
                 /\ weekday w = 0%Z /\ (0 <= d - w <= 6)%Z.
Proof.
  unfold lead_day_of, lead_week_of. destruct (dt_value v) as [ns|]; [|by left].
  right. cbn. exists (dt_date ns), (dt_date (start_time (to_period_W ns))).
  split; [done|]. split; [done|]. rewrite week_start_date.
  unfold weekday, to_period_W. generalize (dt_date ns). intros d. split.
  - replace (7 * ((d + 3) / 7) - 3 + 3)%Z with (((d + 3) / 7) * 7)%Z by lia.
    apply Z.mod_mul. lia.
  - pose proof (Z.div_mod (d + 3) 7 ltac:(lia)).
    pose proof (Z.mod_pos_bound (d + 3) 7 ltac:(lia)). lia.
Qed.

(** C5. In every Clean Record [lead_day] and [lead_week] are both absent
    or both present; when present, [lead_week] is a Monday and [lead_day]
    lies 0 to 6 days after it, in the week that Monday begins. *)
Theorem C5_lead_week_is_monday t out ic rd :
  wf_table t = true ->
  clean_leads to_datetime t = inr (out, ic, rd) ->
  forall r, r ∈ rows out ->
    (at_col "lead_day" r = NaT /\ at_col "lead_week" r = NaT)
    \/ exists d w, at_col "lead_day" r = DateV d
                   /\ at_col "lead_week" r = DateV w
                   /\ weekday w = 0%Z
                   /\ (0 <= d - w <= 6)%Z.
Proof.
  intros _ H r Hr. apply clean_leads_ok in H as (ec & Hec & -> & _).
  cbn [rows] in Hr. apply clean_row_inv in Hr as (line & v & _ & ->).
  rewrite at_col_final_day, at_col_final_week. apply lead_day_week_of.
Qed.

End CleanLeads.

(** ** The e-mail column of the clean frame *)

Lemma zip_with_fst_only {A B C} (g : A -> C) (l : list A) (k : list B) :
  length k = length l -> zip_with (fun x _ => g x) l k = g <$> l.
Proof.
  revert k. induction l as [|x l IH]; intros [|y k] Hlen; csimpl; try done.
  rewrite IH; [done|]. simpl in Hlen. lia.
Qed.

Lemma remove_dups_NoDup (l : list cell) : NoDup l -> remove_dups l = l.
Proof.
  induction 1 as [|x l Hx Hnd IH]; simpl; [done|].
  destruct (decide_rel elem_of x l) as [Hin|_]; [done|by rewrite IH].
Qed.

Lemma nunique_distinct (l : list cell) :
  NoDup l -> (forall v, v ∈ l -> isna v = false) ->
  nunique l = Z.of_nat (length l).
Proof.
  intros Hnd Hna. unfold nunique.
  assert (List.filter (fun v => negb (isna v)) l = l) as ->.
  { clear Hnd. induction l as [|x l IH]; simpl; [done|].
    rewrite (Hna x) by left. simpl. rewrite IH; [done|].
    intros v Hv. apply Hna. by right. }
  by rewrite remove_dups_NoDup.
Qed.

Lemma first_label_final_columns cols :
  first_label is_email_label (final_columns cols)
  = first_label is_email_label cols.
Proof.
  unfold final_columns.
  rewrite first_label_filter by done.
  rewrite !first_label_with_label; try done.
  apply date_label_not_email, date_label_is_date.
Qed.

(** The first row with a key that was not seen before is kept. *)
Lemma dedup_from_keeps_first {A} (K : A -> cell) seen (l1 : list A) x l2 :
  K x ∉ seen -> (forall y, y ∈ l1 -> K y <> K x) ->
  x ∈ select (negb <$> duplicated_from seen (K <$> (l1 ++ x :: l2)%list))
             (l1 ++ x :: l2)%list.
Proof.
  revert seen. induction l1 as [|y l1 IH]; intros seen Hs Hl; csimpl.
  - rewrite bool_decide_false by done. by left.
  - assert (x ∈ select (negb <$> duplicated_from (K y :: seen)
                                   (K <$> (l1 ++ x :: l2)%list))
                       (l1 ++ x :: l2)%list).
    { apply IH.
      - intros [Heq|Hin]%elem_of_cons; [|done]. by apply (Hl y); [left|].
      - intros z Hz. apply Hl. by right. }
    destruct (negb (bool_decide (K y ∈ seen))); [by right|done].
Qed.

Lemma elem_of_zip_with_l {A B C} (f : A -> B -> C) (l : list A) (k : list B) x :
  x ∈ l -> length k = length l -> exists y, f x y ∈ zip_with f l k.
Proof.
  intros [i Hi]%list_elem_of_lookup Hlen.
  destruct (lookup_lt_is_Some_2 k i) as [y Hy].
  { rewrite Hlen. by eapply lookup_lt_Some. }
  exists y. apply list_elem_of_lookup. exists i.
  rewrite lookup_zip_with, Hi. cbn. by rewrite Hy.
Qed.

Section CleanEmails.

Variable to_datetime : list cell -> nat -> option Z.

Lemma col_email_out cols ec kept :
  is_email_label ec = true ->
  at_col ec <$> zip_with (final_row cols ec (date_label cols)) kept
                         (date_values to_datetime cols ec kept)
  = (fun r => Str (key_of cols ec r)) <$> kept.
Proof.
  intros He. rewrite fmap_zip_with'.
  rewrite (zip_with_ext' _ (fun r _ => Str (key_of cols ec r))).
  - apply zip_with_fst_only, date_values_length.
  - intros r v. apply at_col_final_email; [done|apply date_label_is_date].
Qed.

Lemma kept_keys cols ec lines :
  (fun r => Str (key_of cols ec r)) <$> kept_lines cols ec lines
  = let keys := (fun r => Str (key_of cols ec r)) <$> valid_lines cols ec lines in
    select (negb <$> duplicated keys) keys.
Proof. unfold kept_lines. cbv zeta. by rewrite select_fmap. Qed.

Lemma kept_keys_NoDup cols ec lines :
  NoDup ((fun r => Str (key_of cols ec r)) <$> kept_lines cols ec lines).
Proof. rewrite kept_keys. apply dedup_NoDup. Qed.

Lemma main_completed t cleaned rep ic rd :
  main to_datetime t = Completed cleaned rep ic rd ->
  clean_leads to_datetime t = inr (cleaned, ic, rd)
  /\ exists ec, first_label is_email_label (Str.strip <$> header t) = Some ec
                /\ rep = generate_report cleaned ec.
Proof.
  unfold main. destruct (clean_leads to_datetime t) as [[e]|[[out ic'] rd']] eqn:E;
    [done|].
  destruct (clean_leads_ok to_datetime t _ _ _ E) as (ec & Hec & Hout & _).
  assert (first_label is_email_label (columns out) = Some ec) as ->.
  { rewrite Hout. cbn [columns]. by rewrite first_label_final_columns. }
  intros [= <- <- <- <-]. split; [done|]. by exists ec.
Qed.

Lemma main_of_clean_leads t out ic rd :
  clean_leads to_datetime t = inr (out, ic, rd) ->
  exists ec, first_label is_email_label (Str.strip <$> header t) = Some ec
             /\ main to_datetime t = Completed out (generate_report out ec) ic rd.
Proof.
  intros E. destruct (clean_leads_ok to_datetime t _ _ _ E) as (ec & Hec & Hout & _).
  exists ec. split; [done|]. unfold main. rewrite E.
  assert (first_label is_email_label (columns out) = Some ec) as ->; [|done].
  rewrite Hout. cbn [columns]. by rewrite first_label_final_columns.
Qed.

(** C7. The two Summary figures agree: the number of Clean Records is the
    number of distinct e-mails among them. *)
Theorem C7_summary_scalars_equal t cleaned rep ic rd :
  wf_table t = true ->
  main to_datetime t = Completed cleaned rep ic rd ->
  total_leads rep = unique_customers rep
  /\ total_leads rep = len cleaned.
Proof.
  intros _ H. apply main_completed in H as (H & ec & Hec & ->).
  apply clean_leads_ok in H as (ec' & Hec' & -> & _).
  assert (ec' = ec) as -> by congruence.
  pose proof (first_label_Some _ _ _ Hec) as [_ He].
  unfold generate_report. cbn [total_leads unique_customers]. split; [|done].
  unfold col, len. cbn [rows]. rewrite col_email_out by done.
  rewrite nunique_distinct.
  - by rewrite length_fmap, out_length.
  - apply kept_keys_NoDup.
  - by intros v (r & -> & _)%list_elem_of_fmap.
Qed.

(** C8. The key is the trimmed text itself, compared exactly: the trimmed
    e-mail of every valid row is, as written, the e-mail of a Clean Record;
    two valid rows whose trimmed e-mails differ anywhere, be it only in
    letter case, are represented by two distinct Clean Records; and no two
    Clean Records carry the same e-mail. *)
Theorem C8_keys_compared_exactly t out ic rd :
  wf_table t = true ->
  clean_leads to_datetime t = inr (out, ic, rd) ->
  let cols := Str.strip <$> header t in
  exists ec,
    first_label is_email_label cols = Some ec
    /\ (forall r, r ∈ body t -> valid_email (raw_at cols ec r) = true ->
          Str (Str.strip (astype_str (raw_at cols ec r))) ∈ col ec out)
    /\ (forall r1 r2,
          r1 ∈ body t -> r2 ∈ body t ->
          valid_email (raw_at cols ec r1) = true ->
          valid_email (raw_at cols ec r2) = true ->
          Str.strip (astype_str (raw_at cols ec r1))
          <> Str.strip (astype_str (raw_at cols ec r2)) ->
          exists p q : nat,
            p <> q
            /\ col ec out !! p = Some (Str (Str.strip (astype_str (raw_at cols ec r1))))
            /\ col ec out !! q = Some (Str (Str.strip (astype_str (raw_at cols ec r2)))))
    /\ NoDup (col ec out)
    /\ (forall l1 r l2,
          body t = (l1 ++ r :: l2)%list ->
          valid_email (raw_at cols ec r) = true ->
          (forall r', r' ∈ l1 -> valid_email (raw_at cols ec r') = true ->
                      Str.strip (astype_str (raw_at cols ec r'))
                      <> Str.strip (astype_str (raw_at cols ec r))) ->
          exists v, final_row cols ec (date_label cols) r v ∈ rows out).
Proof.
  intros _ H cols. apply clean_leads_ok in H as (ec & Hec & -> & _).
  fold cols in Hec |- *.
  pose proof (first_label_Some _ _ _ Hec) as [_ He].
  exists ec. split; [done|].
  assert (Hcol : col ec (Frame (final_columns cols)
                   (zip_with (final_row cols ec (date_label cols))
                      (kept_lines cols ec (body t))
                      (date_values to_datetime cols ec (kept_lines cols ec (body t)))))
                 = (fun r => Str (key_of cols ec r)) <$> kept_lines cols ec (body t)).
  { unfold col. cbn [rows]. by apply col_email_out. }
  rewrite Hcol. clear Hcol.
  assert (Hin : forall r, r ∈ body t -> valid_email (raw_at cols ec r) = true ->
            Str (key_of cols ec r)
            ∈ (fun r => Str (key_of cols ec r)) <$> kept_lines cols ec (body t)).
  { intros r Hr Hv. rewrite kept_keys. cbv zeta. apply dedup_covers.
    apply list_elem_of_fmap. exists r. split; [done|].
    rewrite valid_lines_filter. apply list_elem_of_In, filter_In.
    split; [by apply list_elem_of_In|done]. }
  split; [exact Hin|]. split; [|split; [apply kept_keys_NoDup|]].
  - intros r1 r2 Hr1 Hr2 Hv1 Hv2 Hne.
    destruct (proj1 (list_elem_of_lookup _ _) (Hin r1 Hr1 Hv1)) as [p Hp].
    destruct (proj1 (list_elem_of_lookup _ _) (Hin r2 Hr2 Hv2)) as [q Hq].
    exists p, q. split; [|done]. intros ->.
    unfold key_of in Hp, Hq. congruence.
  - intros l1 r l2 Hbody Hv Hfirst. cbn [rows].
    apply elem_of_zip_with_l; [|apply date_values_length].
    unfold kept_lines. cbv zeta. rewrite valid_lines_filter, Hbody.
    rewrite List.filter_app. cbn [List.filter]. rewrite Hv.
    apply (dedup_from_keeps_first (fun r => Str (key_of cols ec r)));
      [by intros ?%elem_of_nil|].
    intros r' [Hr' Hv']%list_elem_of_In%filter_In [= Hk].
    apply (Hfirst r'); [by apply list_elem_of_In|done|done].
Qed.

End CleanEmails.

(** ** Column resolution *)

Lemma zip_fmap_snd {A B C} (f : B -> C) (l : list A) (k : list B) :
  zip l (f <$> k) = prod_map id f <$> zip l k.
Proof.
  revert k. induction l as [|x l IH]; intros [|y k]; csimpl; try done.
  by rewrite IH.
Qed.

Lemma at_col_row_of cols c line :
  at_col c (row_of cols line) = of_csv (raw_at cols c line).
Proof.
  unfold at_col, row_of, raw_at.
  rewrite zip_fmap_snd, list_to_map_fmap, lookup_fmap.
  by destruct (list_to_map (zip cols line) !! c) as [[s|]|].
Qed.

Lemma is_email_label_spec c : is_email_label c = true <-> Str.lower c = "email".
Proof. apply String.eqb_eq. Qed.

Lemma is_date_label_spec c :
  is_date_label c = true <-> Str.lower c ∈ ["date"; "created_at"; "lead_date"].
Proof.
  unfold is_date_label. rewrite existsb_exists. split.
  - intros (x & Hx%list_elem_of_In & ->%String.eqb_eq). done.
  - intros H. exists (Str.lower c). split; [by apply list_elem_of_In|].
    apply String.eqb_refl.
Qed.

Lemma not_true_iff_false' b : b = false <-> b <> true.
Proof. destruct b; split; congruence. Qed.

Lemma kept_lines_elem cols ec lines r :
  r ∈ kept_lines cols ec lines ->
  r ∈ lines /\ valid_email (raw_at cols ec r) = true.
Proof.
  unfold kept_lines. cbv zeta. intros H%select_elem_of.
  rewrite valid_lines_filter in H. apply list_elem_of_In, filter_In in H as [H1 H2].
  split; [by apply list_elem_of_In|done].
Qed.

Lemma final_columns_keep cols c :
  c ∈ cols -> c <> "__valid_email" -> c ∈ final_columns cols.
Proof.
  intros Hc Hne. unfold final_columns. apply list_elem_of_In, filter_In. split.
  - apply list_elem_of_In. by do 4 apply with_label_elem.
  - by apply negb_true_iff, String.eqb_neq.
Qed.

Lemma final_columns_derived cols :
  "lead_day" ∈ final_columns cols /\ "lead_week" ∈ final_columns cols
  /\ date_label cols ∈ final_columns cols.
Proof.
  pose proof (date_label_plain _ (date_label_is_date cols)) as (H1 & H2 & H3).
  unfold final_columns. repeat split; apply list_elem_of_In, filter_In.
  - split; [|done]. apply list_elem_of_In, with_label_elem, with_label_self.
  - split; [|done]. apply list_elem_of_In, with_label_self.
  - split; [|by apply negb_true_iff, String.eqb_neq].
    apply list_elem_of_In. do 2 apply with_label_elem. apply with_label_self.
Qed.

Section Resolution.

Variable to_datetime : list cell -> nat -> option Z.

(** Without a date-like label every Clean Record has an absent date. *)
Lemma rows_without_date cols ec kept r :
  first_label is_date_label cols = None ->
  r ∈ zip_with (final_row cols ec (date_label cols)) kept
               (date_values to_datetime cols ec kept) ->
  date_label cols = "date"
  /\ at_col "date" r = NaT
  /\ at_col "lead_day" r = NaT
  /\ at_col "lead_week" r = NaT.
Proof.
  intros Hd Hr.
  assert (Hlab : date_label cols = "date") by (unfold date_label; by rewrite Hd).
  unfold date_values in Hr. rewrite Hd, Hlab in Hr.
  apply elem_of_zip_with in Hr as (line & v & -> & _ & Hv).
  apply elem_of_replicate in Hv as [-> _].
  by rewrite at_col_final_date, at_col_final_day, at_col_final_week.
Qed.

Lemma no_date_label t :
  (forall c, c ∈ header t -> is_date_label (Str.strip c) = false) ->
  first_label is_date_label (Str.strip <$> header t) = None.
Proof.
  intros H. apply first_label_None.
  intros c (c' & -> & Hc')%list_elem_of_fmap. eauto.
Qed.

(** C10. The e-mail column and the date column are the first matching
    labels in header order; every Clean Record takes its e-mail and its
    derived fields from those two columns, and any later matching column
    is kept with the values read from the file. *)
Theorem C10_first_match_in_header_order t :
  wf_table t = true ->
  let cols := Str.strip <$> header t in
  (forall c, first_label is_email_label cols = Some c <->
     exists i : nat, cols !! i = Some c /\ Str.lower c = "email"
       /\ forall (j : nat) y, (j < i)%nat -> cols !! j = Some y ->
                     Str.lower y <> "email")
  /\ (forall c, first_label is_date_label cols = Some c <->
        exists i : nat, cols !! i = Some c
          /\ Str.lower c ∈ ["date"; "created_at"; "lead_date"]
          /\ forall (j : nat) y, (j < i)%nat -> cols !! j = Some y ->
                        Str.lower y ∉ ["date"; "created_at"; "lead_date"])
  /\ forall out ic rd,
      clean_leads to_datetime t = inr (out, ic, rd) ->
      exists ec,
        first_label is_email_label cols = Some ec
        /\ forall r, r ∈ rows out ->
             exists line,
               line ∈ body t
               /\ at_col ec r = Str (Str.strip (astype_str (raw_at cols ec line)))
               /\ at_col "lead_day" r = lead_day_of (at_col (date_label cols) r)
               /\ at_col "lead_week" r = lead_week_of (at_col (date_label cols) r)
               /\ forall c,
                    c ∈ cols ->
                    is_email_label c = true \/ is_date_label c = true ->
                    c <> ec -> c <> date_label cols ->
                    c ∈ columns out /\ at_col c r = of_csv (raw_at cols c line).
Proof.
  intros _ cols. split; [|split].
  - intros c. rewrite first_label_first. apply exist_proper. intros i.
    rewrite is_email_label_spec. do 2 apply and_iff_compat_l. split.
    + intros H j y Hj Hy. rewrite <- is_email_label_spec.
      apply not_true_iff_false'. eauto.
    + intros H j y Hj Hy. apply not_true_iff_false'.
      rewrite is_email_label_spec. eauto.
  - intros c. rewrite first_label_first. apply exist_proper. intros i.
    rewrite is_date_label_spec. do 2 apply and_iff_compat_l. split.
    + intros H j y Hj Hy. rewrite <- is_date_label_spec.
      apply not_true_iff_false'. eauto.
    + intros H j y Hj Hy. apply not_true_iff_false'.
      rewrite is_date_label_spec. eauto.
  - intros out ic rd H. apply clean_leads_ok in H as (ec & Hec & -> & _).
    fold cols in Hec |- *. exists ec. split; [done|].
    pose proof (first_label_Some _ _ _ Hec) as [_ He].
    pose proof (date_label_is_date cols) as Hd.
    intros r Hr. cbn [rows] in Hr.
    apply clean_row_inv in Hr as (line & v & Hline & ->).
    apply kept_lines_elem in Hline as [Hline _].
    exists line. split; [done|].
    rewrite at_col_final_email, at_col_final_day, at_col_final_week,
      at_col_final_date by done.
    split; [done|]. split; [done|]. split; [done|].
    intros c Hc Hmatch Hne1 Hne2.
    assert (c <> "__valid_email" /\ c <> "lead_day" /\ c <> "lead_week")
      as (H1 & H2 & H3).
    { destruct Hmatch; [by apply email_label_plain|by apply date_label_plain]. }
    split; [by apply final_columns_keep|].
    unfold at_col at 1. rewrite final_row_other by done.
    apply at_col_row_of.
Qed.


End Resolution.

(** ** The count tables *)

Lemma sum_count_bump k n acc :
  sum_count (bump k n acc) = (sum_count acc + n)%Z.
Proof.
  induction acc as [|[k' m] acc IH]; simpl; [lia|].
  case_bool_decide; simpl; [lia|].
  destruct (cell_ltb k k'); simpl; [lia|]. rewrite IH. lia.
Qed.

Lemma bump_keys k n acc kc :
  kc ∈ bump k n acc -> kc.1 = k \/ exists kc', kc' ∈ acc /\ kc'.1 = kc.1.
Proof.
  induction acc as [|[k' m] acc IH]; simpl.
  - intros ->%list_elem_of_singleton. by left.
  - case_bool_decide as Hk.
    + intros [-> | H]%elem_of_cons; [left; by simpl|].
      right. exists kc. split; [by right|done].
    + destruct (cell_ltb k k').
      * intros [-> | H]%elem_of_cons; [by left|].
        right. exists kc. split; [done|done].
      * intros [-> | H]%elem_of_cons.
        { right. exists (k', m). split; [by left|done]. }
        destruct (IH H) as [?|(kc' & Hin & Heq)]; [by left|].
        right. exists kc'. split; [by right|done].
Qed.

Lemma groupby_fold_sum key val rs acc :
  sum_count (foldl (count_step key val) acc rs)
  = (sum_count acc
     + Z.of_nat (length (List.filter
                           (fun r => negb (isna (at_col key r))
                                     && negb (isna (at_col val r))) rs)))%Z.
Proof.
  revert acc. induction rs as [|r rs IH]; intros acc; simpl; [lia|].
  rewrite IH. unfold count_step.
  destruct (isna (at_col key r)); simpl; [done|].
  rewrite sum_count_bump. destruct (isna (at_col val r)); simpl; lia.
Qed.

Lemma groupby_fold_keys key val rs acc kc :
  kc ∈ foldl (count_step key val) acc rs ->
  (exists kc', kc' ∈ acc /\ kc'.1 = kc.1)
  \/ exists r, r ∈ rs /\ at_col key r = kc.1 /\ isna kc.1 = false.
Proof.
  revert acc. induction rs as [|r rs IH]; intros acc; simpl.
  - intros H. left. eauto.
  - intros H. destruct (IH _ H) as [(kc' & Hin & Heq)|(r' & Hr' & Hk)].
    + unfold count_step in Hin.
      destruct (isna (at_col key r)) eqn:Hna; [left; eauto|].
      apply bump_keys in Hin as [Hb|(kc'' & Hin & Heq')].
      * right. exists r. split; [by left|]. rewrite <- Heq, Hb. done.
      * left. exists kc''. split; [done|congruence].
    + right. exists r'. split; [by right|done].
Qed.

Lemma groupby_count_sum key val df :
  sum_count (groupby_count key val df)
  = Z.of_nat (length (List.filter
                        (fun r => negb (isna (at_col key r))
                                  && negb (isna (at_col val r))) (rows df))).
Proof. unfold groupby_count. apply (groupby_fold_sum key val (rows df) []). Qed.

Lemma groupby_count_keys key val df k n :
  (k, n) ∈ groupby_count key val df ->
  isna k = false /\ exists r, r ∈ rows df /\ at_col key r = k.
Proof.
  intros H. apply (groupby_fold_keys key val (rows df) []) in H
    as [(kc' & Hin & _)|(r & Hr & Hk & Hna)].
  - by apply elem_of_nil in Hin.
  - eauto.
Qed.

Lemma groupby_count_all_missing key val df :
  (forall r, r ∈ rows df -> isna (at_col key r) = true) ->
  groupby_count key val df = [].
Proof.
  intros H. destruct (groupby_count key val df) as [|[k n] l] eqn:E; [done|].
  assert (Hin : (k, n) ∈ groupby_count key val df) by (rewrite E; left).
  apply groupby_count_keys in Hin as (Hna & r & Hr & <-).
  rewrite H in Hna; done.
Qed.

Lemma filter_length_ext {A} (p q : A -> bool) (l : list A) :
  (forall x, x ∈ l -> p x = q x) ->
  List.filter p l = List.filter q l.
Proof.
  induction l as [|x l IH]; intros H; simpl; [done|].
  rewrite (H x) by left. rewrite IH; [done|]. intros y Hy. apply H. by right.
Qed.

Lemma lead_week_missing v : isna (lead_week_of v) = isna (lead_day_of v).
Proof. unfold lead_week_of, lead_day_of. by destruct (dt_value v). Qed.

Section Report.

Variable to_datetime : list cell -> nat -> option Z.

(** C1, as the code has it.  The Daily and Weekly tables count the dated
    Clean Records only: no row of either table is keyed by the absent
    sentinel, the counts of each table add up to the number of Clean
    Records that carry a date, and without a date-like column both tables
    are empty. *)
Theorem C1_counts_cover_dated_records t cleaned rep ic rd :
  wf_table t = true ->
  main to_datetime t = Completed cleaned rep ic rd ->
  (forall k n, (k, n) ∈ daily rep -> isna k = false)
  /\ (forall k n, (k, n) ∈ weekly rep -> isna k = false)
  /\ sum_count (daily rep) = Z.of_nat (length (dated cleaned))
  /\ sum_count (weekly rep) = Z.of_nat (length (dated cleaned))
  /\ (Z.of_nat (length (dated cleaned)) <= total_leads rep)%Z
  /\ ((forall c, c ∈ header t -> is_date_label (Str.strip c) = false) ->
      daily rep = [] /\ weekly rep = [] /\ dated cleaned = []).
Proof.
  intros _ H.
  apply main_completed in H as (H & ec & Hec & ->).
  pose proof (first_label_Some _ _ _ Hec) as [Hin He].
  pose proof (clean_leads_ok _ _ _ _ _ H) as (ec' & Hec' & Hout & _).
  assert (ec' = ec) as -> by congruence.
  pose proof (final_columns_derived (Str.strip <$> header t)) as (Hld & Hlw & _).
  assert (Hrow : forall r, r ∈ rows cleaned ->
            isna (at_col ec r) = false
            /\ isna (at_col "lead_week" r) = isna (at_col "lead_day" r)).
  { intros r Hr. rewrite Hout in Hr. cbn [rows] in Hr.
    apply clean_row_inv in Hr as (line & v & _ & ->).
    rewrite at_col_final_email, at_col_final_day, at_col_final_week
      by (done || apply date_label_is_date).
    split; [done|apply lead_week_missing]. }
  unfold generate_report. cbn [daily weekly total_leads].
  rewrite !bool_decide_true by (rewrite Hout; done).
  split; [|split; [|split; [|split; [|split]]]].
  - intros k n Hk. by apply groupby_count_keys in Hk as [? _].
  - intros k n Hk. by apply groupby_count_keys in Hk as [? _].
  - rewrite groupby_count_sum. unfold dated. do 2 f_equal.
    apply filter_length_ext. intros r Hr. destruct (Hrow r Hr) as [-> _].
    by rewrite andb_true_r.
  - rewrite groupby_count_sum. unfold dated. do 2 f_equal.
    apply filter_length_ext. intros r Hr. destruct (Hrow r Hr) as [-> ->].
    by rewrite andb_true_r.
  - unfold dated, len. pose proof (List.filter_length_le
      (fun r => negb (isna (at_col "lead_day" r))) (rows cleaned)). lia.
  - intros Hd%no_date_label.
    assert (Habs : forall r, r ∈ rows cleaned ->
              at_col "lead_day" r = NaT /\ at_col "lead_week" r = NaT).
    { intros r Hr. rewrite Hout in Hr. cbn [rows] in Hr.
      by apply rows_without_date in Hr as (_ & _ & ? & ?). }
    split; [|split].
    + apply groupby_count_all_missing. intros r Hr.
      destruct (Habs r Hr) as (-> & _). done.
    + apply groupby_count_all_missing. intros r Hr.
      destruct (Habs r Hr) as (_ & ->). done.
    + unfold dated. destruct (List.filter _ _) as [|r l] eqn:E; [done|].
      assert (Hr : In r (List.filter (fun r => negb (isna (at_col "lead_day" r)))
                                     (rows cleaned))) by (rewrite E; by left).
      apply filter_In in Hr as [Hr%list_elem_of_In Hna].
      destruct (Habs r Hr) as (Hday & _). rewrite Hday in Hna. done.
Qed.

End Report.

(** ** Reading the clean file again *)

Lemma first_label_with_label_gen p c l :
  first_label p (with_label c l)
  = match first_label p l with
    | Some y => Some y
    | None => if p c then Some c else None
    end.
Proof.
  unfold with_label. case_bool_decide as Hc.
  - destruct (first_label p l) as [y|] eqn:E; [done|].
    by rewrite (proj1 (first_label_None p l) E c Hc).
  - clear Hc. unfold first_label. induction l as [|y l IH]; simpl.
    + by destruct (p c).
    + by destruct (p y).
Qed.

Lemma date_label_final_columns cols :
  first_label is_date_label (final_columns cols) = Some (date_label cols).
Proof.
  unfold final_columns. rewrite first_label_filter by done.
  rewrite !first_label_with_label by done.
  rewrite first_label_with_label_gen, first_label_with_label by done.
  rewrite date_label_is_date. unfold date_label.
  by destruct (first_label is_date_label cols).
Qed.

Lemma final_columns_elem cols c :
  c ∈ final_columns cols ->
  c <> "__valid_email"
  /\ (c ∈ cols \/ c = date_label cols \/ c = "lead_day" \/ c = "lead_week").
Proof.
  unfold final_columns. intros [H Hne]%list_elem_of_In%filter_In.
  apply negb_true_iff, String.eqb_neq in Hne. split; [done|].
  apply list_elem_of_In in H.
  apply with_label_elem_inv in H as [->|H]; [auto|].
  apply with_label_elem_inv in H as [->|H]; [auto|].
  apply with_label_elem_inv in H as [->|H]; [auto|].
  apply with_label_elem_inv in H as [->|H]; [done|auto].
Qed.

Lemma with_label_present c l : c ∈ l -> with_label c l = l.
Proof. intros H. unfold with_label. by rewrite bool_decide_true. Qed.

Lemma filter_drop_last (l : list string) c :
  c ∉ l -> List.filter (fun c' => negb (String.eqb c' c)) (l ++ [c])%list = l.
Proof.
  induction l as [|y l IH]; intros H; simpl.
  - by rewrite String.eqb_refl.
  - destruct (String.eqb_spec y c) as [->|Hne]; simpl; [set_solver|].
    rewrite IH; [done|set_solver].
Qed.

Lemma final_columns_idem cols :
  final_columns (final_columns cols) = final_columns cols.
Proof.
  set (X := final_columns cols).
  assert (Hve : "__valid_email" ∉ X).
  { intros H. by apply final_columns_elem in H as [? _]. }
  pose proof (final_columns_derived cols) as (Hld & Hlw & Hdc). fold X in Hld, Hlw, Hdc.
  assert (Hdl : date_label X = date_label cols).
  { unfold date_label at 1. subst X. by rewrite date_label_final_columns. }
  unfold final_columns at 1. rewrite Hdl.
  assert (with_label "__valid_email" X = (X ++ ["__valid_email"])%list) as ->.
  { unfold with_label. by rewrite bool_decide_false. }
  rewrite (with_label_present (date_label cols)) by set_solver.
  rewrite (with_label_present "lead_day") by set_solver.
  rewrite (with_label_present "lead_week") by set_solver.
  by apply filter_drop_last.
Qed.

Lemma imap_fixed {A} (f : nat -> A -> A) (l : list A) :
  (forall i x, x ∈ l -> f i x = x) -> imap f l = l.
Proof.
  revert f. induction l as [|x l IH]; intros f H; csimpl; [done|].
  rewrite (H 0%nat x) by left. f_equal. apply IH.
  intros i y Hy. apply H. by right.
Qed.

Lemma fmap_fixed {A} (f : A -> A) (l : list A) :
  (forall x, x ∈ l -> f x = x) -> f <$> l = l.
Proof.
  induction l as [|x l IH]; intros H; csimpl; [done|].
  rewrite (H x) by left. f_equal. apply IH. intros y Hy. apply H. by right.
Qed.

(** Looking a label up in a line built label by label. *)
Lemma lookup_zip_fmap {B} (g : string -> B) (l : list string) c :
  (list_to_map (zip l (g <$> l)) : gmap string B) !! c
  = if bool_decide (c ∈ l) then Some (g c) else None.
Proof.
  induction l as [|y l IH]; csimpl.
  - by rewrite lookup_empty.
  - destruct (decide (y = c)) as [->|Hne].
    + rewrite lookup_insert_eq. by rewrite bool_decide_true by left.
    + rewrite lookup_insert_ne by done. rewrite IH.
      do 2 case_bool_decide; set_solver.
Qed.

Lemma lookup_zip_present {B} (l : list string) (k : list B) c :
  length k = length l -> c ∈ l ->
  exists x, x ∈ k /\ (list_to_map (zip l k) : gmap string B) !! c = Some x.
Proof.
  revert k. induction l as [|y l IH]; intros [|x k] Hlen Hc; simpl in *; try done.
  - by apply elem_of_nil in Hc.
  - destruct (decide (y = c)) as [->|Hne].
    + exists x. split; [by left|]. by rewrite lookup_insert_eq.
    + destruct (IH k) as (x' & Hx' & Hl); [lia|set_solver|].
      exists x'. split; [by right|]. by rewrite lookup_insert_ne.
Qed.

Lemma lookup_zip_absent {B} (l : list string) (k : list B) c :
  c ∉ l -> (list_to_map (zip l k) : gmap string B) !! c = None.
Proof.
  revert k. induction l as [|y l IH]; intros [|x k] Hc; simpl; try apply lookup_empty.
  rewrite lookup_insert_ne by set_solver. apply IH. set_solver.
Qed.

Lemma na_values_invalid s : s ∈ NA_VALUES -> valid_email (Some s) = false.
Proof.
  intros H. unfold NA_VALUES in H.
  repeat (apply elem_of_cons in H as [->|H]; [by vm_compute|]).
  by apply elem_of_nil in H.
Qed.

Lemma read_field_valid s : valid_email (Some s) = true -> read_field s = Some s.
Proof.
  intros H. unfold read_field. case_bool_decide as Hna; [|done].
  apply na_values_invalid in Hna. congruence.
Qed.

Lemma select_all {A} (f : A -> bool) (l : list A) :
  (forall x, x ∈ l -> f x = true) -> select (f <$> l) l = l.
Proof.
  induction l as [|x l IH]; intros H; csimpl; [done|].
  rewrite (H x) by left. f_equal. apply IH. intros y Hy. apply H. by right.
Qed.

Lemma dedup_from_distinct {A} (K : A -> cell) seen (l : list A) :
  NoDup (K <$> l) -> (forall x, x ∈ l -> K x ∉ seen) ->
  select (negb <$> duplicated_from seen (K <$> l)) l = l.
Proof.
  revert seen. induction l as [|x l IH]; intros seen Hnd Hns; csimpl; [done|].
  apply NoDup_cons in Hnd as [Hx Hnd].
  rewrite bool_decide_false by (apply Hns; left). csimpl. f_equal.
  apply IH; [done|]. intros y Hy [Heq|Hin]%elem_of_cons.
  - apply Hx. rewrite <- Heq. apply list_elem_of_fmap. eauto.
  - apply (Hns y); [by right|done].
Qed.

Lemma row_of_lookup cols line c :
  row_of cols line !! c
  = of_csv <$> ((list_to_map (zip cols line) : gmap string (option string)) !! c).
Proof. unfold row_of. by rewrite zip_fmap_snd, list_to_map_fmap, lookup_fmap. Qed.

Lemma wf_table_lines t line :
  wf_table t = true -> line ∈ body t ->
  length line = length (Str.strip <$> header t).
Proof.
  unfold wf_table. intros [_ H]%andb_true_iff Hl.
  rewrite forallb_forall in H. apply list_elem_of_In in Hl.
  rewrite length_fmap. by apply Nat.eqb_eq, H.
Qed.

Lemma from_read_csv_fields t line s :
  from_read_csv t = true -> line ∈ body t -> Some s ∈ line -> s ∉ NA_VALUES.
Proof.
  unfold from_read_csv. intros [H _]%andb_true_iff Hl Hs.
  rewrite forallb_forall in H. apply list_elem_of_In in Hl.
  specialize (H line Hl). rewrite forallb_forall in H.
  apply list_elem_of_In in Hs. specialize (H _ Hs). cbn in H.
  by apply negb_true_iff, bool_decide_eq_false in H.
Qed.

Lemma from_read_csv_labels t :
  from_read_csv t = true -> "" ∉ Str.strip <$> header t.
Proof.
  unfold from_read_csv. intros [_ H]%andb_true_iff.
  by apply negb_true_iff, bool_decide_eq_false in H.
Qed.

Section Idempotence.

Variable to_datetime : list cell -> nat -> option Z.
Variables fmt_ts fmt_date : Z -> string.

Lemma read_written_field (x : option string) :
  (forall s, x = Some s -> s ∉ NA_VALUES) ->
  read_field (to_csv_cell fmt_ts fmt_date (of_csv x)) = x.
Proof.
  destruct x as [s|]; intros H; cbn; [|done].
  unfold read_field. by rewrite bool_decide_false by by apply H.
Qed.

Lemma raw_at_csv_line cols c r :
  raw_at cols c (csv_line fmt_ts fmt_date cols r)
  = if bool_decide (c ∈ cols)
    then read_field (to_csv_cell fmt_ts fmt_date (at_col c r)) else None.
Proof.
  unfold raw_at, csv_line. rewrite lookup_zip_fmap. by case_bool_decide.
Qed.

Section Row.

Variables (cols : list string) (ec : string) (line : list (option string))
          (v : cell).
Hypothesis Hec : ec ∈ cols.
Hypothesis He : is_email_label ec = true.
Hypothesis Hvalid : valid_email (Some (key_of cols ec line)) = true.
Hypothesis Hlen : length line = length cols.
Hypothesis Hna : forall s, Some s ∈ line -> s ∉ NA_VALUES.

Let dc := date_label cols.
Let X := final_columns cols.
Let R := final_row cols ec dc line v.

Lemma reread_key :
  key_of X ec (csv_line fmt_ts fmt_date X R) = key_of cols ec line.
Proof using Hec He Hvalid.
  pose proof (email_label_plain _ He) as (H1 & _).
  unfold key_of at 1. rewrite raw_at_csv_line.
  rewrite bool_decide_true by by apply final_columns_keep.
  subst R. rewrite at_col_final_email by (done || apply date_label_is_date).
  cbn [to_csv_cell]. rewrite read_field_valid by done. cbn [astype_str].
  unfold key_of. apply strip_idem.
Qed.

Lemma reread_date :
  at_col dc (base_row X ec (csv_line fmt_ts fmt_date X R))
  = of_csv (read_field (to_csv_cell fmt_ts fmt_date v)).
Proof using He.
  pose proof (date_label_is_date cols) as Hd. fold dc in Hd.
  pose proof (date_label_plain _ Hd) as (H1 & _).
  assert (ec <> dc) by (intros <-; apply email_label_not_date in He; congruence).
  unfold at_col at 1, base_row. rewrite !lookup_insert_ne by done.
  fold (at_col dc (row_of X (csv_line fmt_ts fmt_date X R))).
  rewrite at_col_row_of, raw_at_csv_line.
  rewrite bool_decide_true by apply final_columns_derived.
  subst R. by rewrite at_col_final_date.
Qed.

Lemma reread_row :
  final_row X ec dc (csv_line fmt_ts fmt_date X R) v = R.
Proof using Hec He Hvalid Hlen Hna.
  pose proof (date_label_is_date cols) as Hd. fold dc in Hd.
  pose proof (date_label_plain _ Hd) as (Hd1 & Hd2 & Hd3).
  pose proof (email_label_plain _ He) as (He1 & He2 & He3).
  assert (Hne : ec <> dc)
    by (intros <-; apply email_label_not_date in He; congruence).
  apply map_eq. intros c.
  destruct (decide (c = "__valid_email")) as [->|Hc1].
  { subst R. by rewrite !final_row_marker. }
  destruct (decide (c = "lead_week")) as [->|Hc2].
  { subst R. unfold final_row. rewrite !lookup_delete_ne by done.
    by rewrite !lookup_insert_eq. }
  destruct (decide (c = "lead_day")) as [->|Hc3].
  { subst R. unfold final_row. rewrite !lookup_delete_ne by done.
    rewrite !(lookup_insert_ne _ "lead_week") by done.
    by rewrite !lookup_insert_eq. }
  destruct (decide (c = dc)) as [->|Hc4].
  { subst R. unfold final_row. rewrite !lookup_delete_ne by done.
    rewrite !(lookup_insert_ne _ "lead_week") by done.
    rewrite !(lookup_insert_ne _ "lead_day") by done.
    by rewrite !lookup_insert_eq. }
  destruct (decide (c = ec)) as [->|Hc5].
  { pose proof reread_key as Hk. subst R.
    unfold final_row at 1 3. rewrite !lookup_delete_ne by done.
    rewrite !(lookup_insert_ne _ "lead_week") by done.
    rewrite !(lookup_insert_ne _ "lead_day") by done.
    rewrite !(lookup_insert_ne _ dc) by done.
    unfold base_row. rewrite !(lookup_insert_ne _ "__valid_email") by done.
    rewrite !lookup_insert_eq. by rewrite Hk. }
  rewrite final_row_other by done. subst R.
  rewrite !row_of_lookup. unfold csv_line. rewrite lookup_zip_fmap.
  unfold at_col. rewrite final_row_other by done. rewrite row_of_lookup.
  case_bool_decide as Hin.
  - assert (Hc : c ∈ cols).
    { apply final_columns_elem in Hin as [_ [?|[?|[?|?]]]]; done. }
    destruct (lookup_zip_present cols line c Hlen Hc) as (x & Hx & ->).
    cbn. f_equal. f_equal. apply read_written_field.
    intros s ->. by apply Hna.
  - assert (Hc : c ∉ cols).
    { intros Hc. apply Hin. by apply final_columns_keep. }
    by rewrite lookup_zip_absent.
Qed.

End Row.

Lemma final_columns_reread cols :
  "" ∉ cols -> (forall c, c ∈ cols -> Str.strip c = c) ->
  Str.strip <$> header (reread fmt_ts fmt_date (Frame (final_columns cols) []))
  = final_columns cols.
Proof.
  intros Hne Hfix. cbn [reread header columns].
  assert (Hel : forall c, c ∈ final_columns cols -> c <> "" /\ Str.strip c = c).
  { intros c [_ Hc]%final_columns_elem.
    destruct Hc as [Hc | [-> | [-> | ->]]]; [split; [set_solver|auto]| |done|done].
    unfold date_label. destruct (first_label is_date_label cols) as [d|] eqn:E; [|done].
    apply first_label_Some in E as [Hd1 Hd2]. split; [set_solver|auto]. }
  rewrite imap_fixed.
  - apply fmap_fixed. intros c Hc. by apply Hel.
  - intros i c Hc. rewrite bool_decide_false; [done|]. by apply Hel.
Qed.


End Idempotence.

(** ** Worked examples *)

Example monday_2024_01_01 :
  weekday (Iso.days_from_civil 2024 1 1) = 0%Z
  /\ weekday (Iso.days_from_civil 1970 1 1) = 3%Z
  /\ lead_week_of (Timestamp (Iso.days_from_civil 2024 1 7 * NS_PER_DAY + 86399999999999))
     = DateV (Iso.days_from_civil 2024 1 1)
  /\ lead_week_of (Timestamp (Iso.days_from_civil 2024 1 8 * NS_PER_DAY))
     = DateV (Iso.days_from_civil 2024 1 8).
Proof. by vm_compute. Qed.

Example scenario_run :
  main Iso.to_datetime Sample.scenario
  = Completed (Sample.clean Sample.scenario)
              {| daily := [(DateV 19723, 1%Z)];
                 weekly := [(DateV 19723, 1%Z)];
                 total_leads := 2; unique_customers := 2 |}
              1 1
  /\ col "email" (Sample.clean Sample.scenario) = [Str "a@x.com"; Str "c@x.com"]
  /\ col "lead_day" (Sample.clean Sample.scenario) = [DateV 19723; NaT].
Proof. by vm_compute. Qed.

Example no_email_run :
  main Iso.to_datetime Sample.no_email
  = Exit 2 (error_line "Input CSV must contain an 'email' column").
Proof. by vm_compute. Qed.

(** C1 as the specification states it fails: in the scenario of the
    specification the undated lead is in neither table, so the counts add up
    to 1 while there are 2 Clean Records; without a date-like column both
    tables are empty while there are 2 Clean Records. *)
Lemma C1_undated_records_not_counted :
  (let rep := Sample.sheets Sample.scenario in
   NaT ∈ col "lead_day" (Sample.clean Sample.scenario)
   /\ daily rep = [(DateV 19723, 1%Z)]
   /\ weekly rep = [(DateV 19723, 1%Z)]
   /\ total_leads rep = 2%Z
   /\ sum_count (daily rep) <> total_leads rep
   /\ sum_count (weekly rep) <> total_leads rep)
  /\ (let rep := Sample.sheets Sample.undated in
      daily rep = [] /\ weekly rep = [] /\ total_leads rep = 2%Z).
Proof. vm_compute. repeat split; try done. apply list_elem_of_In. right. by left. Qed.

(** C1 on the sample: the counts of both tables add up to the dated Clean
    Records. *)
Lemma C1_witness :
  wf_table Sample.leads = true
  /\ main Iso.to_datetime Sample.leads
     = Completed (Sample.clean Sample.leads) (Sample.sheets Sample.leads) 2 1
  /\ sum_count (daily (Sample.sheets Sample.leads))
     = Z.of_nat (length (dated (Sample.clean Sample.leads)))
  /\ sum_count (weekly (Sample.sheets Sample.leads))
     = Z.of_nat (length (dated (Sample.clean Sample.leads))).
Proof.
  split; [by vm_compute|]. split; [by vm_compute|].
  destruct (C1_counts_cover_dated_records Iso.to_datetime Sample.leads
              (Sample.clean Sample.leads) (Sample.sheets Sample.leads) 2 1)
    as (_ & _ & H1 & H2 & _); [by vm_compute|by vm_compute|].
  exact (conj H1 H2).
Defined.


(** C5 on the sample. *)
Lemma C5_witness :
  wf_table Sample.leads = true
  /\ clean_leads Iso.to_datetime Sample.leads = inr (Sample.clean Sample.leads, 2%Z, 1%Z)
  /\ forall r, r ∈ rows (Sample.clean Sample.leads) ->
       (at_col "lead_day" r = NaT /\ at_col "lead_week" r = NaT)
       \/ exists d w, at_col "lead_day" r = DateV d
                      /\ at_col "lead_week" r = DateV w
                      /\ weekday w = 0%Z /\ (0 <= d - w <= 6)%Z.
Proof.
  split; [by vm_compute|]. split; [by vm_compute|].
  apply (C5_lead_week_is_monday Iso.to_datetime Sample.leads _ 2 1); by vm_compute.
Defined.

(** C6 on the sample: 2 invalid rows, 1 duplicate, 3 Clean Records. *)
Lemma C6_witness :
  wf_table Sample.leads = true
  /\ clean_leads Iso.to_datetime Sample.leads = inr (Sample.clean Sample.leads, 2%Z, 1%Z)
  /\ (2 + Z.of_nat (length (valid_email_rows Sample.leads))
      = Z.of_nat (length (body Sample.leads)))%Z
  /\ (1 + len (Sample.clean Sample.leads)
      = Z.of_nat (length (valid_email_rows Sample.leads)))%Z.
Proof.
  split; [by vm_compute|]. split; [by vm_compute|].
  destruct (C6_counters_conserve Iso.to_datetime Sample.leads
              (Sample.clean Sample.leads) 2 1) as (H1 & H2 & _);
    [by vm_compute|by vm_compute|].
  exact (conj H1 H2).
Defined.

(** C7 on the sample. *)
Lemma C7_witness :
  wf_table Sample.leads = true
  /\ main Iso.to_datetime Sample.leads
     = Completed (Sample.clean Sample.leads) (Sample.sheets Sample.leads) 2 1
  /\ total_leads (Sample.sheets Sample.leads)
     = unique_customers (Sample.sheets Sample.leads).
Proof.
  split; [by vm_compute|]. split; [by vm_compute|].
  apply (C7_summary_scalars_equal Iso.to_datetime Sample.leads
           (Sample.clean Sample.leads) _ 2 1); by vm_compute.
Defined.

(** C8 on the sample: [a@x.com] and [A@x.com] are two Clean Records. *)
Lemma C8_witness :
  wf_table Sample.leads = true
  /\ clean_leads Iso.to_datetime Sample.leads = inr (Sample.clean Sample.leads, 2%Z, 1%Z)
  /\ exists ec,
       first_label is_email_label (Str.strip <$> header Sample.leads) = Some ec
       /\ Str "a@x.com" ∈ col ec (Sample.clean Sample.leads)
       /\ Str "A@x.com" ∈ col ec (Sample.clean Sample.leads)
       /\ NoDup (col ec (Sample.clean Sample.leads)).
Proof.
  split; [by vm_compute|]. split; [by vm_compute|].
  destruct (C8_keys_compared_exactly Iso.to_datetime Sample.leads
              (Sample.clean Sample.leads) 2 1)
    as (ec & Hec & Hin & _ & Hnd & _); [by vm_compute|by vm_compute|].
  exists ec. split; [done|].
  assert (ec = "Email") as -> by (vm_compute in Hec; congruence).
  split; [|split; [|done]].
  - apply (Hin [Some "a@x.com"; Some "2024-01-01"; Some "Ann"; Some "2023-12-31"; Some "x@y.zz"]);
      [left|by vm_compute].
  - apply (Hin [Some "A@x.com"; Some "2024-01-03"; None; None; None]);
      [right; left|by vm_compute].
Defined.


(** C10 on the sample: [Date] is chosen, [created_at] comes later. *)
Lemma C10_witness :
  wf_table Sample.leads = true
  /\ first_label is_email_label (Str.strip <$> header Sample.leads) = Some "Email"
  /\ first_label is_date_label (Str.strip <$> header Sample.leads) = Some "Date"
  /\ exists i : nat,
       (Str.strip <$> header Sample.leads) !! i = Some "Date"
       /\ Str.lower "Date" ∈ ["date"; "created_at"; "lead_date"]
       /\ forall (j : nat) y, (j < i)%nat ->
            (Str.strip <$> header Sample.leads) !! j = Some y ->
            Str.lower y ∉ ["date"; "created_at"; "lead_date"].
Proof.
  split; [by vm_compute|]. split; [by vm_compute|]. split; [by vm_compute|].
  destruct (C10_first_match_in_header_order Iso.to_datetime Sample.leads)
    as (_ & H & _); [by vm_compute|].
  apply H. by vm_compute.
Defined.

(** * Further properties *)

(** ** [valid_email] *)

Lemma all_chars_impl (p q : ascii -> bool) (s : string) :
  (forall c, p c = true -> q c = true) ->
  Str.all_chars p s = true -> Str.all_chars q s = true.
Proof.
  intros H. induction s as [|c s IH]; simpl; [done|].
  intros [Hc Hs]%andb_true_iff. by rewrite (H c Hc), IH.
Qed.

Lemma all_chars_append p (a b : string) :
  Str.all_chars p (a ++ b) = Str.all_chars p a && Str.all_chars p b.
Proof. induction a as [|c a IH]; simpl; [done|]. by rewrite IH, andb_assoc. Qed.

Lemma length_append (a b : string) :
  String.length (a ++ b) = (String.length a + String.length b)%nat.
Proof. induction a as [|c a IH]; simpl; [done|]. by rewrite IH. Qed.

Lemma lstrip_space (a x : string) :
  Str.all_chars Str.isspace a = true -> Str.lstrip (a ++ x) = Str.lstrip x.
Proof.
  induction a as [|c a IH]; simpl; [done|].
  intros [Hc Ha]%andb_true_iff. rewrite Hc. by apply IH.
Qed.

Lemma rstrip_all_space (b : string) :
  Str.all_chars Str.isspace b = true -> Str.rstrip b = "".
Proof.
  induction b as [|c b IH]; simpl; [done|].
  intros [Hc Hb]%andb_true_iff. by rewrite (IH Hb), Hc.
Qed.

Lemma rstrip_space (x b : string) :
  Str.all_chars Str.isspace b = true -> Str.rstrip (x ++ b) = Str.rstrip x.
Proof.
  intros Hb. induction x as [|c x IH]; simpl.
  - by apply rstrip_all_space.
  - by rewrite IH.
Qed.

Lemma lstrip_all_space (b : string) :
  Str.all_chars Str.isspace b = true -> Str.lstrip b = "".
Proof.
  induction b as [|c b IH]; simpl; [done|].
  intros [Hc Hb]%andb_true_iff. rewrite Hc. by apply IH.
Qed.

Lemma strip_space_r (s b : string) :
  Str.all_chars Str.isspace b = true -> Str.strip (s ++ b) = Str.strip s.
Proof.
  intros Hb. unfold Str.strip. induction s as [|c s IH]; simpl.
  - by rewrite lstrip_all_space.
  - destruct (Str.isspace c); [done|].
    by rewrite <- (rstrip_space (String c s) b Hb).
Qed.

(** X1. White space around the text never changes the verdict. *)
Theorem X1_valid_email_ignores_outer_space (a s b : string) :
  Str.all_chars Str.isspace a = true ->
  Str.all_chars Str.isspace b = true ->
  valid_email (Some (a ++ s ++ b)) = valid_email (Some s)
  /\ Str.strip (a ++ s ++ b) = Str.strip s.
Proof.
  intros Ha Hb.
  assert (H : Str.strip (a ++ s ++ b) = Str.strip s).
  { rewrite <- (strip_space_r s b Hb). unfold Str.strip.
    by rewrite lstrip_space. }
  split; [|done]. cbn. by rewrite H.
Qed.

(** The characters a valid e-mail can hold. *)
Lemma local_char_plain c :
  EmailSpec.local_char c = true ->
  negb (Ascii.eqb c "@") && negb (Str.isspace c)
  && (EmailSpec.alnum c || EmailSpec.one_of "_.+-@" c) = true.
Proof. by destruct c as [[] [] [] [] [] [] [] []]. Qed.

Lemma domain_char_plain c :
  EmailSpec.domain_char c = true ->
  negb (Ascii.eqb c "@") && negb (Str.isspace c)
  && (EmailSpec.alnum c || EmailSpec.one_of "_.+-@" c) = true.
Proof. by destruct c as [[] [] [] [] [] [] [] []]. Qed.

Lemma tld_char_plain c :
  EmailSpec.tld_char c = true ->
  negb (Ascii.eqb c "@") && negb (Str.isspace c)
  && (EmailSpec.alnum c || EmailSpec.one_of "_.+-@" c) = true.
Proof. by destruct c as [[] [] [] [] [] [] [] []]. Qed.

Lemma length_nonempty (s : string) : s <> "" -> (1 <= String.length s)%nat.
Proof. destruct s; [done|simpl; lia]. Qed.

(** X2. What a valid e-mail never is: its trimmed text has exactly one [@],
    with a non-empty part before it and a dot with text on both sides after
    it, at least five characters, no white space, and only ASCII letters,
    digits and the signs [_ . + - @]. *)
Theorem X2_valid_email_necessary (s : string) :
  valid_email (Some s) = true ->
  exists l r x y : string,
    Str.strip s = l ++ "@" ++ r
    /\ l <> "" /\ r = x ++ "." ++ y /\ x <> "" /\ y <> ""
    /\ Str.all_chars (fun c => negb (Ascii.eqb c "@")) l = true
    /\ Str.all_chars (fun c => negb (Ascii.eqb c "@")) r = true
    /\ Str.all_chars (fun c => negb (Str.isspace c)) (Str.strip s) = true
    /\ Str.all_chars (fun c => EmailSpec.alnum c || EmailSpec.one_of "_.+-@" c)
                     (Str.strip s) = true
    /\ (5 <= String.length (Str.strip s))%nat.
Proof.
  intros (s' & [= <-] & _ & l & d & t & Hs & Hl & Hd & Ht & Hal & Had & Hat)
    %valid_email_spec.
  set (P := fun c => negb (Ascii.eqb c "@") && negb (Str.isspace c)
                     && (EmailSpec.alnum c || EmailSpec.one_of "_.+-@" c)).
  assert (Pl : Str.all_chars P l = true)
    by (eapply all_chars_impl; [apply local_char_plain|done]).
  assert (Pd : Str.all_chars P d = true)
    by (eapply all_chars_impl; [apply domain_char_plain|done]).
  assert (Pt : Str.all_chars P t = true)
    by (eapply all_chars_impl; [apply tld_char_plain|done]).
  assert (P1 : forall c, P c = true -> negb (Ascii.eqb c "@") = true).
  { intros c. unfold P. by intros [[? _]%andb_true_iff _]%andb_true_iff. }
  assert (P2 : forall c, P c = true -> negb (Str.isspace c) = true).
  { intros c. unfold P. by intros [[_ ?]%andb_true_iff _]%andb_true_iff. }
  assert (P3 : forall c, P c = true ->
                 EmailSpec.alnum c || EmailSpec.one_of "_.+-@" c = true).
  { intros c. unfold P. by intros [_ ?]%andb_true_iff. }
  exists l, (d ++ "." ++ t), d, t. rewrite Hs.
  split; [done|]. split; [done|]. split; [done|]. split; [done|]. split; [done|].
  split; [by eapply all_chars_impl|].
  split.
  { rewrite !all_chars_append. cbn.
    by rewrite (all_chars_impl _ _ d P1 Pd), (all_chars_impl _ _ t P1 Pt). }
  split.
  { rewrite !all_chars_append. cbn.
    by rewrite (all_chars_impl _ _ l P2 Pl), (all_chars_impl _ _ d P2 Pd),
      (all_chars_impl _ _ t P2 Pt). }
  split.
  { rewrite !all_chars_append. cbn.
    by rewrite (all_chars_impl _ _ l P3 Pl), (all_chars_impl _ _ d P3 Pd),
      (all_chars_impl _ _ t P3 Pt). }
  rewrite !length_append. cbn.
  pose proof (length_nonempty l Hl). pose proof (length_nonempty d Hd).
  pose proof (length_nonempty t Ht). lia.
Qed.

(** ** The clean frame *)

Lemma with_label_app c (l : list string) :
  exists added, with_label c l = (l ++ added)%list
                /\ (added = [] \/ (added = [c] /\ c ∉ l)).
Proof.
  unfold with_label. case_bool_decide.
  - exists []. split; [by rewrite app_nil_r|by left].
  - exists [c]. split; [done|by right].
Qed.

Lemma with_label_NoDup c (l : list string) : NoDup l -> NoDup (with_label c l).
Proof.
  intros H. unfold with_label. case_bool_decide; [done|].
  apply NoDup_app. split; [done|]. split; [|apply NoDup_singleton].
  intros x Hx ->%list_elem_of_singleton. done.
Qed.

Lemma filter_elem (p : string -> bool) (l : list string) x :
  x ∈ List.filter p l <-> x ∈ l /\ p x = true.
Proof. rewrite !list_elem_of_In. apply filter_In. Qed.

Lemma filter_NoDup (p : string -> bool) (l : list string) :
  NoDup l -> NoDup (List.filter p l).
Proof.
  induction 1 as [|x l Hx Hl IH]; simpl; [constructor|].
  destruct (p x); [|done]. constructor; [|done].
  intros [? _]%filter_elem. done.
Qed.

Lemma wf_table_NoDup t : wf_table t = true -> NoDup (Str.strip <$> header t).
Proof. unfold wf_table. by intros [H%bool_decide_eq_true _]%andb_true_iff. Qed.

Lemma final_columns_NoDup cols : NoDup cols -> NoDup (final_columns cols).
Proof.
  intros H. unfold final_columns. by apply filter_NoDup; do 4 apply with_label_NoDup.
Qed.

Lemma final_columns_marker cols : "__valid_email" ∉ final_columns cols.
Proof. intros H. by apply final_columns_elem in H as [? _]. Qed.

(** The labels of the clean frame: those of the file in their order, the
    marker apart, then the labels added. *)
Lemma final_columns_order cols :
  exists added,
    final_columns cols
    = (List.filter (fun c => negb (String.eqb c "__valid_email")) cols ++ added)%list
    /\ forall c, c ∈ added ->
         (c ∉ cols)
         /\ (c = "lead_day" \/ c = "lead_week"
             \/ (c = "date" /\ first_label is_date_label cols = None)).
Proof.
  unfold final_columns.
  pose proof (date_label_plain _ (date_label_is_date cols)) as (Hd1 & Hd2 & Hd3).
  destruct (with_label_app "__valid_email" cols) as (a1 & -> & H1).
  destruct (with_label_app (date_label cols) (cols ++ a1)) as (a2 & -> & H2).
  destruct (with_label_app "lead_day" ((cols ++ a1) ++ a2)) as (a3 & -> & H3).
  destruct (with_label_app "lead_week" (((cols ++ a1) ++ a2) ++ a3))
    as (a4 & -> & H4).
  rewrite !List.filter_app.
  exists (a2 ++ a3 ++ a4)%list. split.
  - rewrite <- !app_assoc. f_equal.
    assert (List.filter (fun c => negb (String.eqb c "__valid_email")) a1 = []) as ->
      by (destruct H1 as [->|[-> _]]; done).
    assert (List.filter (fun c => negb (String.eqb c "__valid_email")) a2 = a2) as ->.
    { destruct H2 as [->|[-> _]]; [done|]. cbn.
      by rewrite (proj2 (String.eqb_neq _ _) Hd1). }
    assert (List.filter (fun c => negb (String.eqb c "__valid_email")) a3 = a3) as ->
      by (destruct H3 as [->|[-> _]]; done).
    assert (List.filter (fun c => negb (String.eqb c "__valid_email")) a4 = a4) as ->
      by (destruct H4 as [->|[-> _]]; done).
    done.
  - intros c Hc. rewrite !elem_of_app in Hc.
    destruct Hc as [Hc|[Hc|Hc]].
    + destruct H2 as [->|[-> Hn]]; [by apply elem_of_nil in Hc|].
      apply list_elem_of_singleton in Hc as ->.
      assert (Hnc : date_label cols ∉ cols) by set_solver.
      split; [done|]. right; right. unfold date_label in *.
      destruct (first_label is_date_label cols) as [d|] eqn:E; [|done].
      apply first_label_Some in E as [? _]. done.
    + destruct H3 as [->|[-> Hn]]; [by apply elem_of_nil in Hc|].
      apply list_elem_of_singleton in Hc as ->. split; [set_solver|auto].
    + destruct H4 as [->|[-> Hn]]; [by apply elem_of_nil in Hc|].
      apply list_elem_of_singleton in Hc as ->. split; [set_solver|auto].
Qed.

Lemma final_row_dom cols ec dc line v c :
  is_email_label ec = true -> ec ∈ cols -> dc = date_label cols ->
  length line = length cols ->
  is_Some (final_row cols ec dc line v !! c) <-> c ∈ final_columns cols.
Proof.
  intros He Hec -> Hlen.
  pose proof (date_label_is_date cols) as Hd.
  pose proof (date_label_plain _ Hd) as (Hd1 & Hd2 & Hd3).
  pose proof (email_label_plain _ He) as (He1 & He2 & He3).
  pose proof (final_columns_derived cols) as (Hld & Hlw & Hdc).
  destruct (decide (c = "__valid_email")) as [->|Hc1].
  { rewrite final_row_marker. split; [by intros [? ?]|].
    by intros ?%final_columns_marker. }
  destruct (decide (c = "lead_week")) as [->|Hc2].
  { unfold final_row. rewrite lookup_delete_ne, lookup_insert_eq by done.
    split; [done|eauto]. }
  destruct (decide (c = "lead_day")) as [->|Hc3].
  { unfold final_row. rewrite lookup_delete_ne, lookup_insert_ne, lookup_insert_eq by done.
    split; [done|eauto]. }
  destruct (decide (c = date_label cols)) as [->|Hc4].
  { unfold final_row.
    rewrite lookup_delete_ne, !lookup_insert_ne, lookup_insert_eq by done.
    split; [done|eauto]. }
  destruct (decide (c = ec)) as [->|Hc5].
  { unfold final_row, base_row.
    rewrite lookup_delete_ne, !lookup_insert_ne, lookup_insert_eq by done.
    split; [intros _; by apply final_columns_keep|eauto]. }
  rewrite final_row_other, row_of_lookup by done. split.
  - intros [x Hx]. apply final_columns_keep; [|done].
    destruct (decide (c ∈ cols)) as [?|Hn]; [done|].
    by rewrite lookup_zip_absent in Hx.
  - intros [_ [Hc|[?|[?|?]]]]%final_columns_elem; try done.
    destruct (lookup_zip_present cols line c Hlen Hc) as (x & _ & ->). by eexists.
Qed.

Section CleanFrame.

Variable to_datetime : list cell -> nat -> option Z.

Lemma date_values_kind cols ec kept v :
v ∈ date_values to_datetime cols ec kept -> v = NaT \/ exists ns, v = Timestamp ns.
Proof.
unfold date_values, parsed. destruct (first_label is_date_label cols).
- intros (i & -> & _)%list_elem_of_fmap.
  destruct (to_datetime _ i); [right; by eexists|by left].
- intros [-> _]%elem_of_replicate. by left.
Qed.

(** X3. Every Clean Record carries a trimmed, valid e-mail. *)
Theorem X3_clean_emails_are_valid t out ic rd :
wf_table t = true ->
clean_leads to_datetime t = inr (out, ic, rd) ->
exists ec,
  first_label is_email_label (Str.strip <$> header t) = Some ec
  /\ forall r, r ∈ rows out ->
       exists s, at_col ec r = Str s
                 /\ Str.strip s = s
                 /\ valid_email (Some s) = true
                 /\ EmailSpec.email_shape s.
Proof.
intros _ H. apply clean_leads_ok in H as (ec & Hec & -> & _).
exists ec. split; [done|].
pose proof (first_label_Some _ _ _ Hec) as [_ He].
intros r Hr. cbn [rows] in Hr.
apply clean_row_inv in Hr as (line & v & [_ Hv]%kept_lines_elem & ->).
exists (key_of (Str.strip <$> header t) ec line).
rewrite at_col_final_email by (done || apply date_label_is_date).
assert (Hs : Str.strip (key_of (Str.strip <$> header t) ec line)
             = key_of (Str.strip <$> header t) ec line)
  by (unfold key_of; apply strip_idem).
assert (Hvalid : valid_email (Some (key_of (Str.strip <$> header t) ec line)) = true)
  by (unfold key_of; by rewrite valid_email_trimmed).
split; [done|]. split; [done|]. split; [done|].
apply valid_email_spec in Hvalid as (s' & [= <-] & _ & Hshape).
by rewrite Hs in Hshape.
Qed.

(** X4. The shape of the clean frame: the validity marker is gone, as
  label and as value, even when the file had a column of that name; the
  labels are distinct; they are the labels of the file in their order,
  followed by those of [date], [lead_day], [lead_week] that the file did
  not have; and every row has a value under every label and under no
  other. *)
Theorem X4_clean_frame_shape t out ic rd :
wf_table t = true ->
clean_leads to_datetime t = inr (out, ic, rd) ->
let cols := Str.strip <$> header t in
("__valid_email" ∉ columns out)
/\ NoDup (columns out)
/\ "lead_day" ∈ columns out /\ "lead_week" ∈ columns out
/\ date_label cols ∈ columns out
/\ (exists added,
      columns out
      = (List.filter (fun c => negb (String.eqb c "__valid_email")) cols
         ++ added)%list
      /\ forall c, c ∈ added ->
           (c ∉ cols)
           /\ (c = "lead_day" \/ c = "lead_week"
               \/ (c = "date" /\ first_label is_date_label cols = None)))
/\ forall r, r ∈ rows out -> forall c, is_Some (r !! c) <-> c ∈ columns out.
Proof.
intros Hwf H cols. apply clean_leads_ok in H as (ec & Hec & -> & _).
fold cols in Hec |- *. cbn [columns rows].
pose proof (first_label_Some _ _ _ Hec) as [Hin He].
pose proof (final_columns_derived cols) as (Hld & Hlw & Hdc).
split; [apply final_columns_marker|].
split; [by apply final_columns_NoDup, wf_table_NoDup|].
split; [done|]. split; [done|]. split; [done|].
split; [apply final_columns_order|].
intros r (line & v & [Hl _]%kept_lines_elem & ->)%clean_row_inv c.
apply final_row_dom; try done. by apply wf_table_lines.
Qed.

(** X5. Every column of the file other than the e-mail column, the date
  column and the three reserved labels passes through unchanged: each
  Clean Record holds, under such a label, the field of its line. *)
Theorem X5_other_columns_pass_through t out ic rd :
wf_table t = true ->
clean_leads to_datetime t = inr (out, ic, rd) ->
let cols := Str.strip <$> header t in
exists ec,
  first_label is_email_label cols = Some ec
  /\ forall r, r ∈ rows out ->
       exists line,
         line ∈ body t
         /\ at_col ec r = Str (Str.strip (astype_str (raw_at cols ec line)))
         /\ forall c,
              c ∈ cols -> c <> ec -> c <> date_label cols ->
              c <> "__valid_email" -> c <> "lead_day" -> c <> "lead_week" ->
              c ∈ columns out /\ at_col c r = of_csv (raw_at cols c line).
Proof.
intros _ H cols. apply clean_leads_ok in H as (ec & Hec & -> & _).
fold cols in Hec |- *. exists ec. split; [done|].
pose proof (first_label_Some _ _ _ Hec) as [_ He].
intros r (line & v & [Hl _]%kept_lines_elem & ->)%clean_row_inv.
exists line. split; [done|].
rewrite at_col_final_email by (done || apply date_label_is_date).
split; [done|]. intros c Hc H1 H2 H3 H4 H5. cbn [columns].
split; [by apply final_columns_keep|].
unfold at_col at 1. rewrite final_row_other by done. apply at_col_row_of.
Qed.

(** X6. The Clean Records come in the order of the file: their e-mails are
  a subsequence of the trimmed e-mails of the lines. *)
Theorem X6_clean_records_in_input_order t out ic rd :
wf_table t = true ->
clean_leads to_datetime t = inr (out, ic, rd) ->
let cols := Str.strip <$> header t in
exists ec,
  first_label is_email_label cols = Some ec
  /\ sublist (col ec out)
             ((fun line => Str (Str.strip (astype_str (raw_at cols ec line))))
                <$> body t).
Proof.
intros _ H cols. apply clean_leads_ok in H as (ec & Hec & -> & _).
fold cols in Hec |- *. exists ec. split; [done|].
pose proof (first_label_Some _ _ _ Hec) as [_ He].
unfold col. cbn [rows]. rewrite col_email_out by done.
apply fmap_sublist. unfold kept_lines, valid_lines. cbv zeta.
etrans; apply select_sublist.
Qed.

(** X7. In every Clean Record the date column holds a timestamp or [NaT]:
  with [NaT] both derived fields are [NaT]; with a timestamp [lead_day] is
  its calendar day, whatever the time of day, and [lead_week] the first
  day of its weekly period. *)
Theorem X7_date_column_kinds t out ic rd :
wf_table t = true ->
clean_leads to_datetime t = inr (out, ic, rd) ->
let dc := date_label (Str.strip <$> header t) in
forall r, r ∈ rows out ->
  (at_col dc r = NaT /\ at_col "lead_day" r = NaT /\ at_col "lead_week" r = NaT)
  \/ exists ns,
       at_col dc r = Timestamp ns
       /\ at_col "lead_day" r = DateV (dt_date ns)
       /\ at_col "lead_week" r = DateV (dt_date (start_time (to_period_W ns)))
       /\ (dt_date ns * NS_PER_DAY <= ns < (dt_date ns + 1) * NS_PER_DAY)%Z.
Proof.
intros _ H dc r Hr. apply clean_leads_ok in H as (ec & Hec & -> & _).
cbn [rows] in Hr.
apply elem_of_zip_with in Hr as (line & v & -> & _ & Hv).
apply date_values_kind in Hv.
rewrite at_col_final_date, at_col_final_day, at_col_final_week
  by apply date_label_is_date.
destruct Hv as [->|[ns ->]]; [by left|]. right. exists ns.
split; [done|]. split; [done|]. split; [done|].
unfold dt_date, NS_PER_DAY.
pose proof (Z.div_mod ns 86400000000000 ltac:(lia)).
pose proof (Z.mod_pos_bound ns 86400000000000 ltac:(lia)). lia.
Qed.

End CleanFrame.

(** ** The count tables, group by group *)

Lemma bump_sum_if (p : cell -> bool) k n acc :
  sum_count (List.filter (fun kn => p kn.1) (bump k n acc))
  = (sum_count (List.filter (fun kn => p kn.1) acc) + (if p k then n else 0))%Z.
Proof.
  induction acc as [|[k' m] acc IH]; simpl.
  - destruct (p k); simpl; lia.
  - case_bool_decide as Hk; simpl.
    + subst k'. destruct (p k); simpl; lia.
    + destruct (cell_ltb k k'); simpl.
      * destruct (p k), (p k'); simpl; lia.
      * destruct (p k'); simpl; rewrite IH; lia.
Qed.

Lemma groupby_fold_sum_if (p : cell -> bool) key val rs acc :
  sum_count (List.filter (fun kn => p kn.1) (foldl (count_step key val) acc rs))
  = (sum_count (List.filter (fun kn => p kn.1) acc)
     + Z.of_nat (length (List.filter
                           (fun r => negb (isna (at_col key r)) && p (at_col key r)
                                     && negb (isna (at_col val r))) rs)))%Z.
Proof.
  revert acc. induction rs as [|r rs IH]; intros acc; simpl; [lia|].
  rewrite IH. unfold count_step.
  destruct (isna (at_col key r)); simpl; [done|].
  rewrite bump_sum_if.
  destruct (p (at_col key r)), (isna (at_col val r)); simpl; lia.
Qed.

Lemma date_before_irrefl k : ~ date_before k k.
Proof. destruct k; simpl; lia. Qed.

Lemma date_before_trans a b c : date_before a b -> date_before b c -> date_before a c.
Proof. destruct a, b, c; simpl; try done. lia. Qed.

Lemma bump_sorted d n (acc : list (cell * Z)) :
  Forall (fun kn => exists x, kn.1 = DateV x) acc ->
  StronglySorted (fun a b => date_before a.1 b.1) acc ->
  Forall (fun kn => exists x, kn.1 = DateV x) (bump (DateV d) n acc)
  /\ StronglySorted (fun a b => date_before a.1 b.1) (bump (DateV d) n acc).
Proof.
  induction acc as [|[k' m] acc IH]; intros Hd Hs; simpl.
  - split; [repeat constructor; by eexists|repeat constructor].
  - apply Forall_cons in Hd as [[d' Hk'] Hd]. simpl in Hk'. subst k'.
    apply StronglySorted_inv in Hs as [Hs Hall].
    case_bool_decide as Hk.
    + split; [constructor; [by eexists|done]|].
      constructor; [done|]. exact Hall.
    + assert (d <> d') by congruence. cbn [cell_ltb].
      destruct (Z.ltb_spec d d') as [Hlt|Hge].
      * split; [constructor; [by eexists|constructor; [by eexists|done]]|].
        constructor; [by constructor|].
        constructor; [done|].
        eapply Forall_impl; [exact Hall|].
        intros kn Hkn. eapply date_before_trans; [|exact Hkn]. done.
      * destruct (IH Hd Hs) as [IH1 IH2].
        split; [constructor; [by eexists|done]|].
        constructor; [done|].
        apply Forall_forall. intros kn [Hkn|(kn' & Hin & Heq)]%bump_keys.
        { rewrite Hkn. simpl. lia. }
        rewrite <- Heq. rewrite Forall_forall in Hall. by apply Hall.
Qed.

Lemma groupby_fold_sorted key val rs acc :
  (forall r, r ∈ rs -> isna (at_col key r) = true \/ exists d, at_col key r = DateV d) ->
  Forall (fun kn => exists x, kn.1 = DateV x) acc ->
  StronglySorted (fun a b => date_before a.1 b.1) acc ->
  Forall (fun kn => exists x, kn.1 = DateV x) (foldl (count_step key val) acc rs)
  /\ StronglySorted (fun a b => date_before a.1 b.1)
                    (foldl (count_step key val) acc rs).
Proof.
  revert acc. induction rs as [|r rs IH]; intros acc Hk Hd Hs; simpl; [done|].
  assert (Hrs : forall r', r' ∈ rs ->
             isna (at_col key r') = true \/ exists d, at_col key r' = DateV d)
    by (intros r' Hr'; apply Hk; by right).
  unfold count_step at 2 4.
  destruct (Hk r ltac:(by left)) as [Hna|[d Hday]].
  - rewrite Hna. by apply IH.
  - rewrite Hday. cbn [isna].
    destruct (bump_sorted d (if isna (at_col val r) then 0 else 1)%Z acc Hd Hs).
    by apply IH.
Qed.

(** In a strictly sorted sheet the rows with key [k] are the one row of [k]. *)
Lemma sorted_sheet_entry (sheet : list (cell * Z)) k n :
  StronglySorted (fun a b => date_before a.1 b.1) sheet ->
  (k, n) ∈ sheet ->
  sum_count (List.filter (fun kn => bool_decide (kn.1 = k)) sheet) = n.
Proof.
  induction 1 as [|[k0 n0] sheet Hs IH Hall]; [by intros ?%elem_of_nil|].
  intros [[= <- <-]|Hin]%elem_of_cons; simpl.
  - rewrite bool_decide_true by done. simpl.
    assert (List.filter (fun kn : cell * Z => bool_decide (kn.1 = k)) sheet = []) as ->.
    { clear IH Hs. induction sheet as [|kn sheet IHs]; simpl; [done|].
      apply Forall_cons in Hall as [Hkn Hall]. simpl in Hkn.
      rewrite bool_decide_false.
      - by apply IHs.
      - intros Heq. rewrite Heq in Hkn. by apply date_before_irrefl in Hkn. }
    simpl. lia.
  - rewrite Forall_forall in Hall. specialize (Hall _ Hin). simpl in Hall.
    rewrite bool_decide_false; [by apply IH|].
    intros ->. by apply date_before_irrefl in Hall.
Qed.

Lemma sum_count_nonempty (sheet : list (cell * Z)) :
  sum_count sheet <> 0%Z -> exists kn, kn ∈ sheet.
Proof. destruct sheet as [|kn l]; [done|]. intros _. exists kn. by left. Qed.

(** The table of a frame whose keys are dates or missing and whose counted
    values are never missing. *)
Lemma groupby_count_dates key val df :
  (forall r, r ∈ rows df ->
     (isna (at_col key r) = true \/ exists d, at_col key r = DateV d)
     /\ isna (at_col val r) = false) ->
  let sheet := groupby_count key val df in
  Forall (fun kn => exists x, kn.1 = DateV x) sheet
  /\ StronglySorted (fun a b => date_before a.1 b.1) sheet
  /\ (forall k n, (k, n) ∈ sheet ->
        n = Z.of_nat (length (rows_with key k df)) /\ (1 <= n)%Z)
  /\ (forall r, r ∈ rows df ->
        isna (at_col key r) = true \/ exists n, (at_col key r, n) ∈ sheet).
Proof.
  intros Hrows sheet.
  destruct (groupby_fold_sorted key val (rows df) []) as [Hd Hs];
    [intros r Hr; by apply Hrows|constructor|constructor|].
  fold (groupby_count key val df) in Hd, Hs. fold sheet in Hd, Hs.
  assert (Hcount : forall k, isna k = false ->
            sum_count (List.filter (fun kn => bool_decide (kn.1 = k)) sheet)
            = Z.of_nat (length (rows_with key k df))).
  { intros k Hk. subst sheet. unfold groupby_count.
    pose proof (groupby_fold_sum_if (fun k' => bool_decide (k' = k))
                  key val (rows df) []) as Hf.
    cbv beta in Hf. rewrite Hf. cbn [List.filter sum_count foldr].
    rewrite Z.add_0_l.
    unfold rows_with. do 2 f_equal. apply filter_length_ext. intros r Hr.
    destruct (Hrows r Hr) as [_ ->]. rewrite andb_true_r.
    case_bool_decide as Heq; [|by rewrite andb_false_r].
    by rewrite Heq, Hk. }
  split; [done|]. split; [done|]. split.
  - intros k n Hin.
    pose proof (groupby_count_keys key val df k n Hin) as (Hk & r & Hr & Hkr).
    rewrite <- (Hcount k Hk), (sorted_sheet_entry sheet k n Hs Hin).
    split; [done|].
    rewrite <- (sorted_sheet_entry sheet k n Hs Hin), (Hcount k Hk).
    assert (r ∈ rows_with key k df).
    { unfold rows_with. apply list_elem_of_In, filter_In.
      split; [by apply list_elem_of_In|by apply bool_decide_eq_true]. }
    destruct (rows_with key k df); [by apply elem_of_nil in H|simpl; lia].
  - intros r Hr. destruct (isna (at_col key r)) eqn:Hk; [by left|]. right.
    destruct (sum_count_nonempty
                (List.filter (fun kn => bool_decide (kn.1 = at_col key r)) sheet))
      as [[k n] Hkn].
    { rewrite (Hcount _ Hk).
      assert (r ∈ rows_with key (at_col key r) df).
      { unfold rows_with. apply list_elem_of_In, filter_In.
        split; [by apply list_elem_of_In|by apply bool_decide_eq_true]. }
      destruct (rows_with key (at_col key r) df);
        [by apply elem_of_nil in H|simpl; lia]. }
    apply list_elem_of_In, filter_In in Hkn as [Hin Heq%bool_decide_eq_true].
    simpl in Heq. subst k. exists n. by apply list_elem_of_In.
Qed.

Lemma lead_day_of_kind v : lead_day_of v = NaT \/ exists d, lead_day_of v = DateV d.
Proof. unfold lead_day_of. destruct (dt_value v); [right; by eexists|by left]. Qed.

Lemma lead_week_of_kind v : lead_week_of v = NaT \/ exists d, lead_week_of v = DateV d.
Proof.
  unfold lead_week_of. destruct (dt_value v); cbn; [right; by eexists|by left].
Qed.

Lemma lead_week_of_day v d :
  lead_day_of v = DateV d -> lead_week_of v = DateV (week_of_day d).
Proof.
  unfold lead_day_of, lead_week_of. destruct (dt_value v) as [ns|]; cbn; [|done].
  by intros [= <-].
Qed.

Lemma isna_NaT_date k :
  (k = NaT \/ exists d, k = DateV d) -> isna k = true -> k = NaT.
Proof. intros [->|[d ->]]; [done|discriminate]. Qed.

Section Tables.

Variable to_datetime : list cell -> nat -> option Z.

(** The rows of a clean frame, as the count tables see them. *)
Lemma clean_rows_keys t cleaned rep ic rd :
main to_datetime t = Completed cleaned rep ic rd ->
exists ec,
  rep = generate_report cleaned ec
  /\ "lead_day" ∈ columns cleaned /\ "lead_week" ∈ columns cleaned
  /\ forall r, r ∈ rows cleaned ->
       exists v, at_col "lead_day" r = lead_day_of v
                 /\ at_col "lead_week" r = lead_week_of v
                 /\ isna (at_col ec r) = false.
Proof.
intros (H & ec & Hec & ->)%main_completed. exists ec. split; [done|].
pose proof (first_label_Some _ _ _ Hec) as [_ He].
apply clean_leads_ok in H as (ec' & Hec' & -> & _).
assert (ec' = ec) as -> by congruence. cbn [columns rows].
pose proof (final_columns_derived (Str.strip <$> header t)) as (Hld & Hlw & _).
split; [done|]. split; [done|].
intros r (line & v & _ & ->)%clean_row_inv. exists v.
by rewrite at_col_final_day, at_col_final_week, at_col_final_email
  by (done || apply date_label_is_date).
Qed.

(** X8. Each count table has one row per bucket that occurs, in strictly
  ascending date order; the count of a row is the number of Clean Records
  in that bucket, at least 1; and the bucket of every dated Clean Record
  has its row. *)
Theorem X8_count_tables_by_bucket t cleaned rep ic rd :
wf_table t = true ->
main to_datetime t = Completed cleaned rep ic rd ->
(Forall (fun kn => exists d, kn.1 = DateV d) (daily rep)
 /\ StronglySorted (fun a b => date_before a.1 b.1) (daily rep)
 /\ (forall k n, (k, n) ∈ daily rep ->
       n = Z.of_nat (length (rows_with "lead_day" k cleaned)) /\ (1 <= n)%Z)
 /\ (forall r, r ∈ rows cleaned ->
       at_col "lead_day" r = NaT
       \/ exists n, (at_col "lead_day" r, n) ∈ daily rep))
/\ (Forall (fun kn => exists d, kn.1 = DateV d) (weekly rep)
    /\ StronglySorted (fun a b => date_before a.1 b.1) (weekly rep)
    /\ (forall k n, (k, n) ∈ weekly rep ->
          n = Z.of_nat (length (rows_with "lead_week" k cleaned)) /\ (1 <= n)%Z)
    /\ (forall r, r ∈ rows cleaned ->
          at_col "lead_week" r = NaT
          \/ exists n, (at_col "lead_week" r, n) ∈ weekly rep)).
Proof.
intros _ (ec & -> & Hld & Hlw & Hrows)%clean_rows_keys.
unfold generate_report. cbn [daily weekly]. rewrite !bool_decide_true by done.
split.
- destruct (groupby_count_dates "lead_day" ec cleaned) as (H1 & H2 & H3 & H4).
  { intros r (v & -> & _ & Hna)%Hrows. split; [|done].
    destruct (lead_day_of_kind v) as [->|[d ->]]; [by left|right; by eexists]. }
  split; [done|]. split; [done|]. split; [done|].
  intros r Hr. destruct (H4 r Hr) as [Hna|?]; [left|by right].
  destruct (Hrows r Hr) as (v & Hv & _). rewrite Hv in Hna |- *.
  by apply isna_NaT_date; [apply lead_day_of_kind|].
- destruct (groupby_count_dates "lead_week" ec cleaned) as (H1 & H2 & H3 & H4).
  { intros r (v & _ & -> & Hna)%Hrows. split; [|done].
    destruct (lead_week_of_kind v) as [->|[d ->]]; [by left|right; by eexists]. }
  split; [done|]. split; [done|]. split; [done|].
  intros r Hr. destruct (H4 r Hr) as [Hna|?]; [left|by right].
  destruct (Hrows r Hr) as (v & _ & Hv & _). rewrite Hv in Hna |- *.
  by apply isna_NaT_date; [apply lead_week_of_kind|].
Qed.

(** X9. The two tables agree: the count of a week is the sum of the counts
  of the days of that week in the Daily table, and the week of every day
  of the Daily table has its row in the Weekly table. *)
Theorem X9_weekly_is_sum_of_daily t cleaned rep ic rd :
wf_table t = true ->
main to_datetime t = Completed cleaned rep ic rd ->
(forall w n, (w, n) ∈ weekly rep ->
   n = sum_count (List.filter (fun kn => in_week w kn.1) (daily rep)))
/\ (forall d m, (DateV d, m) ∈ daily rep ->
      exists n, (DateV (week_of_day d), n) ∈ weekly rep).
Proof.
intros Hwf Hmain.
pose proof (clean_rows_keys _ _ _ _ _ Hmain) as (ec & Hrep & Hld & Hlw & Hrows).
assert (Hweek : Forall (fun kn => exists d, kn.1 = DateV d) (weekly rep)
                /\ (forall k n, (k, n) ∈ weekly rep ->
                      n = Z.of_nat (length (rows_with "lead_week" k cleaned)))
                /\ (forall r, r ∈ rows cleaned ->
                      isna (at_col "lead_week" r) = true
                      \/ exists n, (at_col "lead_week" r, n) ∈ weekly rep)).
{ rewrite Hrep. unfold generate_report. cbn [weekly].
  rewrite bool_decide_true by done.
  destruct (groupby_count_dates "lead_week" ec cleaned) as (H1 & _ & H3 & H4).
  { intros r (v & _ & -> & Hna)%Hrows. split; [|done].
    destruct (lead_week_of_kind v) as [->|[d ->]]; [by left|right; by eexists]. }
  split; [done|]. split; [|done]. intros k n Hin. by apply H3. }
destruct Hweek as (Hdates & Hcount & Hall).
split.
- intros w n Hin. rewrite (Hcount w n Hin).
  rewrite Forall_forall in Hdates. destruct (Hdates _ Hin) as [dw Hw].
  simpl in Hw. subst w.
  rewrite Hrep. unfold generate_report. cbn [daily].
  rewrite bool_decide_true by done. unfold groupby_count.
  pose proof (groupby_fold_sum_if (in_week (DateV dw)) "lead_day" ec
                (rows cleaned) []) as Hf.
  rewrite Hf. cbn [List.filter sum_count foldr]. rewrite Z.add_0_l.
  unfold rows_with. do 2 f_equal. apply filter_length_ext.
  intros r (v & -> & -> & ->)%Hrows. rewrite andb_true_r.
  destruct (lead_day_of_kind v) as [Hd|[d Hd]].
  + rewrite Hd. cbn. unfold lead_day_of, lead_week_of in *.
    destruct (dt_value v); [done|]. cbn. by rewrite bool_decide_false.
  + rewrite (lead_week_of_day v d Hd), Hd. done.
- intros d m Hin. rewrite Hrep in Hin. unfold generate_report in Hin.
  cbn [daily] in Hin. rewrite bool_decide_true in Hin by done.
  apply groupby_count_keys in Hin as (_ & r & Hr & Hk).
  destruct (Hrows r Hr) as (v & Hv1 & Hv2 & _).
  rewrite Hv1 in Hk. apply lead_week_of_day in Hk.
  destruct (Hall r Hr) as [Hna|Hex].
  + rewrite Hv2, Hk in Hna. done.
  + by rewrite Hv2, Hk in Hex.
Qed.

End Tables.

(** ** [generate_report] and [drop_duplicates] on any frame *)

Lemma remove_dups_length_le (l : list cell) :
  (length (remove_dups l) <= length l)%nat.
Proof.
  induction l as [|x l IH]; simpl; [done|].
  destruct (decide_rel elem_of x (l)); simpl; lia.
Qed.


(** X11. Deduplicating twice changes nothing more. *)
Theorem X11_drop_duplicates_idempotent (c : string) (df : frame) :
  drop_duplicates c (drop_duplicates c df) = drop_duplicates c df.
Proof.
  unfold drop_duplicates at 1. unfold filter_rows.
  destruct (drop_duplicates c df) as [cols rs] eqn:E. cbn [columns rows]. f_equal.
  unfold col. cbn [rows].
  apply (dedup_from_distinct (at_col c)); [|by intros ? ? ?%elem_of_nil].
  assert (at_col c <$> rs = col c (drop_duplicates c df)) as ->
    by (by rewrite E).
  rewrite col_drop_duplicates. apply dedup_NoDup.
Qed.

(** ** The counters *)

Lemma filter_length_all {A} (p : A -> bool) (l : list A) :
  length (List.filter p l) = length l <-> forall x, x ∈ l -> p x = true.
Proof.
  induction l as [|x l IH]; simpl.
  - split; [by intros _ x ?%elem_of_nil|done].
  - pose proof (List.filter_length_le p l) as Hle. destruct (p x) eqn:Hx; simpl.
    + split.
      * intros [= H] y [->|Hy]%elem_of_cons; [done|]. by apply IH.
      * intros H. f_equal. apply IH. intros y Hy. apply H. by right.
    + split; [lia|]. intros H. rewrite (H x) in Hx by left. done.
Qed.

Lemma sublist_same_length {A} (l k : list A) :
  sublist l k -> length l = length k -> l = k.
Proof.
  induction 1 as [|x l k Hs IH|x l k Hs IH]; simpl; [done| |].
  - intros [= H]. by rewrite IH.
  - intros H. apply sublist_length in Hs. lia.
Qed.

Lemma filter_Permutation' {A} (p : A -> bool) (l k : list A) :
  l ≡ₚ k -> List.filter p l ≡ₚ List.filter p k.
Proof.
  induction 1 as [|x l k H IH|x y l|l k m H1 IH1 H2 IH2]; simpl.
  - done.
  - destruct (p x); [by constructor|done].
  - destruct (p x), (p y); try done. apply perm_swap.
  - by etrans.
Qed.

Section Counters.

Variable to_datetime : list cell -> nat -> option Z.

(** X12. When the counters are zero: no invalid e-mail is counted exactly
  when every line has a valid one, and no duplicate is removed exactly
  when the trimmed e-mails of the valid lines are pairwise distinct. *)
Theorem X12_counters_zero t out ic rd :
wf_table t = true ->
clean_leads to_datetime t = inr (out, ic, rd) ->
let cols := Str.strip <$> header t in
exists ec,
  first_label is_email_label cols = Some ec
  /\ (ic = 0%Z <-> forall line, line ∈ body t ->
                                valid_email (raw_at cols ec line) = true)
  /\ (rd = 0%Z <->
      NoDup ((fun line => Str.strip (astype_str (raw_at cols ec line)))
               <$> valid_email_rows t)).
Proof.
intros _ H cols. apply clean_leads_ok in H as (ec & Hec & _ & -> & ->).
fold cols in Hec |- *. exists ec. split; [done|].
unfold valid_email_rows. fold cols. rewrite Hec, <- valid_lines_filter.
split.
- rewrite <- filter_length_all, <- valid_lines_filter.
  pose proof (select_length
    ((fun r => valid_email (Some (key_of cols ec r))) <$> body t) (body t)) as Hle.
  fold (valid_lines cols ec (body t)) in Hle. lia.
- set (valid := valid_lines cols ec (body t)).
  assert (Hsub : sublist (kept_lines cols ec (body t)) valid)
    by apply select_sublist.
  pose proof (sublist_length _ _ Hsub) as Hle.
  change (fun line => Str.strip (astype_str (raw_at cols ec line)))
    with (key_of cols ec).
  split.
  + intros Hz. assert (Heq : kept_lines cols ec (body t) = valid)
      by (apply sublist_same_length; [done|lia]).
    pose proof (kept_keys_NoDup cols ec (body t)) as Hnd. rewrite Heq in Hnd.
    apply (NoDup_fmap_1 Str). rewrite <- list_fmap_compose. exact Hnd.
  + intros Hnd. assert (Heq : kept_lines cols ec (body t) = valid).
    { unfold kept_lines. cbv zeta. fold valid.
      apply (dedup_from_distinct (fun r => Str (key_of cols ec r)));
        [|by intros ? ? ?%elem_of_nil].
      change (fun r => Str (key_of cols ec r)) with (Str ∘ key_of cols ec).
      rewrite list_fmap_compose.
      apply NoDup_fmap_2_strong; [|done]. by intros x y _ _ [= ->]. }
    rewrite Heq. lia.
Qed.



End Counters.

(** ** The weekly period *)

(** X14. The week bucket is the 7-day window, starting on a Monday at
    midnight, that holds the instant: the start of the period of an instant
    is at or before it and the next period starts after it; the period of a
    period's start is that period; a later instant never gets an earlier day
    or week; and two instants share [lead_week] exactly when they fall in the
    same period. *)
Theorem X14_week_bucket_holds_instant :
  (forall ns, (start_time (to_period_W ns) <= ns < start_time (to_period_W ns + 1))%Z)
  /\ (forall p, to_period_W (start_time p) = p
                /\ (start_time (p + 1) - start_time p = 7 * NS_PER_DAY)%Z
                /\ weekday (dt_date (start_time p)) = 0%Z)
  /\ (forall a b, (a <= b)%Z ->
        (dt_date a <= dt_date b)%Z
        /\ (to_period_W a <= to_period_W b)%Z
        /\ (dt_date (start_time (to_period_W a))
            <= dt_date (start_time (to_period_W b)))%Z)
  /\ (forall a b, to_period_W a = to_period_W b
                  <-> lead_week_of (Timestamp a) = lead_week_of (Timestamp b)).
Proof.
  assert (HN : (0 < NS_PER_DAY)%Z) by done.
  split; [|split; [|split]].
  - intros ns. unfold start_time, to_period_W, dt_date.
    pose proof (Z.div_mod ns NS_PER_DAY ltac:(lia)) as H1.
    pose proof (Z.mod_pos_bound ns NS_PER_DAY HN) as H2.
    set (d := (ns / NS_PER_DAY)%Z) in *.
    pose proof (Z.div_mod (d + 3) 7 ltac:(lia)) as H3.
    pose proof (Z.mod_pos_bound (d + 3) 7 ltac:(lia)) as H4.
    set (q := ((d + 3) / 7)%Z) in *. nia.
  - intros p. rewrite week_start_date. split; [|split].
    + unfold to_period_W. rewrite week_start_date.
      replace (7 * p - 3 + 3)%Z with (p * 7)%Z by lia. by apply Z.div_mul.
    + unfold start_time. lia.
    + unfold weekday. replace (7 * p - 3 + 3)%Z with (p * 7)%Z by lia.
      by apply Z.mod_mul.
  - intros a b Hab.
    assert (Hd : (dt_date a <= dt_date b)%Z) by (by apply Z.div_le_mono).
    assert (Hw : (to_period_W a <= to_period_W b)%Z)
      by (unfold to_period_W; apply Z.div_le_mono; lia).
    rewrite !week_start_date. lia.
  - intros a b. unfold lead_week_of. cbn. rewrite !week_start_date. split.
    + by intros ->.
    + intros [= H]. lia.
Qed.

(** ** Further worked examples *)

(** X1 on [a@b.co] between blanks and a final newline. *)
Lemma X1_witness :
  Str.all_chars Str.isspace "  " = true
  /\ Str.all_chars Str.isspace (String " " (String "010" "")) = true
  /\ valid_email (Some ("  " ++ "a@b.co" ++ String " " (String "010" "")))
     = valid_email (Some "a@b.co").
Proof.
  split; [by vm_compute|]. split; [by vm_compute|].
  apply (X1_valid_email_ignores_outer_space
           "  " "a@b.co" (String " " (String "010" ""))); by vm_compute.
Defined.

(** X2 on a padded address. *)
Lemma X2_witness :
  valid_email (Some " ann.lee+x@mail-1.example.org ") = true
  /\ exists l r x y : string,
       Str.strip " ann.lee+x@mail-1.example.org " = l ++ "@" ++ r
       /\ l <> "" /\ r = x ++ "." ++ y /\ x <> "" /\ y <> ""
       /\ Str.all_chars (fun c => negb (Ascii.eqb c "@")) l = true
       /\ Str.all_chars (fun c => negb (Ascii.eqb c "@")) r = true
       /\ Str.all_chars (fun c => negb (Str.isspace c))
                        (Str.strip " ann.lee+x@mail-1.example.org ") = true
       /\ Str.all_chars (fun c => EmailSpec.alnum c || EmailSpec.one_of "_.+-@" c)
                        (Str.strip " ann.lee+x@mail-1.example.org ") = true
       /\ (5 <= String.length (Str.strip " ann.lee+x@mail-1.example.org "))%nat.
Proof.
  split; [by vm_compute|].
  apply (X2_valid_email_necessary " ann.lee+x@mail-1.example.org "). by vm_compute.
Defined.

(** X3 on the sample. *)
Lemma X3_witness :
  wf_table Sample.leads = true
  /\ clean_leads Iso.to_datetime Sample.leads = inr (Sample.clean Sample.leads, 2%Z, 1%Z)
  /\ exists ec,
       first_label is_email_label (Str.strip <$> header Sample.leads) = Some ec
       /\ forall r, r ∈ rows (Sample.clean Sample.leads) ->
            exists s, at_col ec r = Str s /\ Str.strip s = s
                      /\ valid_email (Some s) = true /\ EmailSpec.email_shape s.
Proof.
  split; [by vm_compute|]. split; [by vm_compute|].
  apply (X3_clean_emails_are_valid Iso.to_datetime Sample.leads _ 2 1); by vm_compute.
Defined.

(** X4 on the sample: the labels of the clean frame. *)
Lemma X4_witness :
  wf_table Sample.leads = true
  /\ clean_leads Iso.to_datetime Sample.leads = inr (Sample.clean Sample.leads, 2%Z, 1%Z)
  /\ columns (Sample.clean Sample.leads)
     = ["Email"; "Date"; "name"; "created_at"; "EMAIL"; "lead_day"; "lead_week"]
  /\ NoDup (columns (Sample.clean Sample.leads))
  /\ forall r, r ∈ rows (Sample.clean Sample.leads) ->
       forall c, is_Some (r !! c) <-> c ∈ columns (Sample.clean Sample.leads).
Proof.
  split; [by vm_compute|]. split; [by vm_compute|]. split; [by vm_compute|].
  destruct (X4_clean_frame_shape Iso.to_datetime Sample.leads
              (Sample.clean Sample.leads) 2 1)
    as (_ & Hnd & _ & _ & _ & _ & Hdom); [by vm_compute|by vm_compute|].
  exact (conj Hnd Hdom).
Defined.

(** X5 on the sample. *)
Lemma X5_witness :
  wf_table Sample.leads = true
  /\ clean_leads Iso.to_datetime Sample.leads = inr (Sample.clean Sample.leads, 2%Z, 1%Z)
  /\ exists ec,
       first_label is_email_label (Str.strip <$> header Sample.leads) = Some ec
       /\ forall r, r ∈ rows (Sample.clean Sample.leads) ->
            exists line,
              line ∈ body Sample.leads
              /\ at_col "name" r
                 = of_csv (raw_at (Str.strip <$> header Sample.leads) "name" line).
Proof.
  split; [by vm_compute|]. split; [by vm_compute|].
  destruct (X5_other_columns_pass_through Iso.to_datetime Sample.leads
              (Sample.clean Sample.leads) 2 1)
    as (ec & Hec & H); [by vm_compute|by vm_compute|].
  exists ec. split; [done|].
  assert (ec = "Email") as -> by (vm_compute in Hec; congruence).
  intros r Hr. destruct (H r Hr) as (line & Hl & _ & Hc).
  exists line. split; [done|].
  by apply Hc; [apply list_elem_of_In; vm_compute; tauto|..].
Defined.

(** X6 on the sample. *)
Lemma X6_witness :
  wf_table Sample.leads = true
  /\ clean_leads Iso.to_datetime Sample.leads = inr (Sample.clean Sample.leads, 2%Z, 1%Z)
  /\ exists ec,
       first_label is_email_label (Str.strip <$> header Sample.leads) = Some ec
       /\ sublist (col ec (Sample.clean Sample.leads))
                  ((fun line => Str (Str.strip (astype_str
                      (raw_at (Str.strip <$> header Sample.leads) ec line))))
                     <$> body Sample.leads).
Proof.
  split; [by vm_compute|]. split; [by vm_compute|].
  apply (X6_clean_records_in_input_order Iso.to_datetime Sample.leads _ 2 1);
    by vm_compute.
Defined.

(** X7 on the sample. *)
Lemma X7_witness :
  wf_table Sample.leads = true
  /\ clean_leads Iso.to_datetime Sample.leads = inr (Sample.clean Sample.leads, 2%Z, 1%Z)
  /\ forall r, r ∈ rows (Sample.clean Sample.leads) ->
       (at_col "Date" r = NaT /\ at_col "lead_day" r = NaT
        /\ at_col "lead_week" r = NaT)
       \/ exists ns,
            at_col "Date" r = Timestamp ns
            /\ at_col "lead_day" r = DateV (dt_date ns)
            /\ at_col "lead_week" r = DateV (dt_date (start_time (to_period_W ns)))
            /\ (dt_date ns * NS_PER_DAY <= ns < (dt_date ns + 1) * NS_PER_DAY)%Z.
Proof.
  split; [by vm_compute|]. split; [by vm_compute|].
  apply (X7_date_column_kinds Iso.to_datetime Sample.leads _ 2 1); by vm_compute.
Defined.

(** X8 on the sample: the Daily table is in ascending order. *)
Lemma X8_witness :
  wf_table Sample.leads = true
  /\ main Iso.to_datetime Sample.leads
     = Completed (Sample.clean Sample.leads) (Sample.sheets Sample.leads) 2 1
  /\ daily (Sample.sheets Sample.leads) = [(DateV 19723, 1%Z); (DateV 19725, 1%Z)]
  /\ StronglySorted (fun a b => date_before a.1 b.1) (daily (Sample.sheets Sample.leads))
  /\ StronglySorted (fun a b => date_before a.1 b.1) (weekly (Sample.sheets Sample.leads)).
Proof.
  split; [by vm_compute|]. split; [by vm_compute|]. split; [by vm_compute|].
  destruct (X8_count_tables_by_bucket Iso.to_datetime Sample.leads
              (Sample.clean Sample.leads) (Sample.sheets Sample.leads) 2 1)
    as ((_ & H1 & _) & (_ & H2 & _)); [by vm_compute|by vm_compute|].
  exact (conj H1 H2).
Defined.

(** X9 on the sample: the one week holds both days. *)
Lemma X9_witness :
  wf_table Sample.leads = true
  /\ main Iso.to_datetime Sample.leads
     = Completed (Sample.clean Sample.leads) (Sample.sheets Sample.leads) 2 1
  /\ weekly (Sample.sheets Sample.leads) = [(DateV 19723, 2%Z)]
  /\ forall w n, (w, n) ∈ weekly (Sample.sheets Sample.leads) ->
       n = sum_count (List.filter (fun kn => in_week w kn.1)
                                  (daily (Sample.sheets Sample.leads))).
Proof.
  split; [by vm_compute|]. split; [by vm_compute|]. split; [by vm_compute|].
  apply (X9_weekly_is_sum_of_daily Iso.to_datetime Sample.leads
           (Sample.clean Sample.leads) _ 2 1); by vm_compute.
Defined.

(** X12 on the sample: neither counter is zero there. *)
Lemma X12_witness :
  wf_table Sample.leads = true
  /\ clean_leads Iso.to_datetime Sample.leads = inr (Sample.clean Sample.leads, 2%Z, 1%Z)
  /\ exists ec,
       first_label is_email_label (Str.strip <$> header Sample.leads) = Some ec
       /\ (2%Z = 0%Z <->
           forall line, line ∈ body Sample.leads ->
             valid_email (raw_at (Str.strip <$> header Sample.leads) ec line) = true)
       /\ (1%Z = 0%Z <->
           NoDup ((fun line => Str.strip (astype_str
                     (raw_at (Str.strip <$> header Sample.leads) ec line)))
                    <$> valid_email_rows Sample.leads)).
Proof.
  split; [by vm_compute|]. split; [by vm_compute|].
  apply (X12_counters_zero Iso.to_datetime Sample.leads
           (Sample.clean Sample.leads) 2 1); by vm_compute.
Defined.


